(** * DataDeck: the data-fetch layer of [nft_dashboard_fixed.py]

    A shallow embedding of the three fetch functions of the dashboard
    ([get_collection_stats], [get_recent_sales], [get_collection_assets]),
    of the image-URL rewriting done by the asset grid, and of the result
    cache described by the specification.

    Python values are embedded as an inductive type of JSON-shaped values,
    exceptions as an inductive type of exception classes, and the effects of
    a call (HTTP requests, sleeps, Streamlit messages) as a chronological
    trace threaded through a small state-and-exception monad. *)

From Stdlib Require Import ZArith Ascii String SpecFloat.
From stdpp Require Import prelude strings gmap.

Open Scope Z_scope.

(** ** Python values *)

Module Py.

(** Binary64 floats, as specified by IEEE 754 ([prec = 53], [emax = 1024]). *)
Definition float : Type := spec_float.

(** What [response.json()] produces: [None], [bool], [int], [float], [str],
    [list] and [dict] (keys in insertion order). *)
#[warnings="-register-all"]
Inductive json : Type :=
| JNull
| JBool (b : bool)
| JInt (z : Z)
| JFloat (f : float)
| JStr (s : string)
| JArr (l : list json)
| JObj (kvs : list (string * json)).

(** The exception classes the handlers of the source tell apart.
    [Timeout] is [requests.exceptions.Timeout]; [RequestException] is any
    other [requests.exceptions.RequestException], carrying
    [e.response.status_code] when [e.response is not None]; [NameError] is
    the failure of a global name lookup; [Exception_] is any other subclass
    of [Exception], by class name. *)
Inductive exn : Type :=
| Timeout
| RequestException (response : option Z)
| NameError (name : string)
| Exception_ (cls : string).

Definition TypeError : exn := Exception_ "TypeError".
Definition ValueError : exn := Exception_ "ValueError".
Definition AttributeError : exn := Exception_ "AttributeError".
Definition KeyError : exn := Exception_ "KeyError".
Definition OverflowError : exn := Exception_ "OverflowError".

(** A Python expression either yields a value or raises. *)
Inductive outcome (A : Type) : Type :=
| Returned (a : A)
| Raised (e : exn).
Arguments Returned {A} a.
Arguments Raised {A} e.

Definition obind {A B} (x : outcome A) (k : A -> outcome B) : outcome B :=
  match x with
  | Returned a => k a
  | Raised e => Raised e
  end.

(** The parts of the libraries that the source calls and does not define:
    what [float] and [int] make of a string that is not a plain integer
    literal, the rows [pd.DataFrame(x).iterrows()] yields, and
    [datetime.fromisoformat(s).strftime('%Y-%m-%d %H:%M:%S')].  [None]
    stands for the library raising. *)
Record runtime : Type := {
  float_of_str : string -> option float;
  int_of_str : string -> option Z;
  DataFrame_iterrows : json -> outcome (list (list (string * json)));
  fromisoformat_strftime : string -> option string
}.

(** *** Strings *)

(** [sub in s] on strings. *)
Fixpoint str_contains (sub s : string) : bool :=
  String.prefix sub s ||
  match s with
  | EmptyString => false
  | String _ s' => str_contains sub s'
  end.

(** [s.replace(old, new)]: every non-overlapping occurrence of [old], from
    the left.  [skip] counts the characters of a matched occurrence that are
    still to be dropped. *)
Fixpoint replace_from (old new : string) (skip : nat) (s : string) : string :=
  match s with
  | EmptyString => EmptyString
  | String c s' =>
      match skip with
      | S k => replace_from old new k s'
      | O =>
          if String.prefix old s
          then new +:+ replace_from old new (Nat.pred (String.length old)) s'
          else String c (replace_from old new O s')
      end
  end.

Fixpoint interleave (new s : string) : string :=
  match s with
  | EmptyString => new
  | String c s' => new +:+ String c (interleave new s')
  end.

Definition str_replace (old new s : string) : string :=
  match old with
  | EmptyString => interleave new s
  | String _ _ => replace_from old new O s
  end.

(** *** Numbers *)

Definition float_of_Z (z : Z) : float := binary_normalize 53 1024 z 0 false.

Definition fdiv (x y : float) : float := SFdiv 53 1024 x y.

Definition digit_of (c : ascii) : option Z :=
  let n := Z.of_N (N_of_ascii c) in
  if (48 <=? n) && (n <=? 57) then Some (n - 48) else None.

Fixpoint digits_value (acc : Z) (s : string) : option Z :=
  match s with
  | EmptyString => Some acc
  | String c s' =>
      match digit_of c with
      | Some d => digits_value (10 * acc + d) s'
      | None => None
      end
  end.

(** A plain integer literal, an optional sign and one or more ASCII
    digits: the sign ([true] for minus) and the magnitude. *)
Definition int_literal (s : string) : option (bool * Z) :=
  match s with
  | EmptyString => None
  | String c r =>
      if Ascii.eqb c "-" then
        match r with
        | EmptyString => None
        | String _ _ => option_map (pair true) (digits_value 0 r)
        end
      else if Ascii.eqb c "+" then
        match r with
        | EmptyString => None
        | String _ _ => option_map (pair false) (digits_value 0 r)
        end
      else option_map (pair false) (digits_value 0 s)
  end.

Definition is_infinite (f : float) : bool :=
  match f with
  | S754_infinity _ => true
  | _ => false
  end.

(** [float(v)].  An [int] too large for a double raises; a string is parsed
    ([float("-0")] is the negative zero, an overlong literal is [inf]). *)
Definition py_float (rt : runtime) (v : json) : outcome float :=
  match v with
  | JInt z =>
      let f := float_of_Z z in
      if is_infinite f then Raised OverflowError else Returned f
  | JFloat f => Returned f
  | JBool b => Returned (float_of_Z (if b then 1 else 0))
  | JStr s =>
      match int_literal s with
      | Some (neg, n) =>
          Returned (binary_normalize 53 1024 (if neg then - n else n) 0 neg)
      | None =>
          match float_of_str rt s with
          | Some f => Returned f
          | None => Raised ValueError
          end
      end
  | JNull | JArr _ | JObj _ => Raised TypeError
  end.

(** [int(v)]: a float is truncated towards zero.  A literal longer than
    the interpreter's digit limit is left to the runtime. *)
Definition py_int (rt : runtime) (v : json) : outcome Z :=
  match v with
  | JInt z => Returned z
  | JBool b => Returned (if b then 1 else 0)
  | JFloat f =>
      match f with
      | S754_zero _ => Returned 0
      | S754_infinity _ => Raised OverflowError
      | S754_nan => Raised ValueError
      | S754_finite s m e =>
          let a := if 0 <=? e then Z.pos m * 2 ^ e else Z.pos m / 2 ^ (- e) in
          Returned (if s then - a else a)
      end
  | JStr s =>
      match (if (String.length s <=? 4300)%nat then int_literal s else None) with
      | Some (neg, n) => Returned (if neg then - n else n)
      | None =>
          match int_of_str rt s with
          | Some z => Returned z
          | None => Raised ValueError
          end
      end
  | JNull | JArr _ | JObj _ => Raised TypeError
  end.

(** *** Containers *)

(** Truth value of an object, as tested by [if x:] and [and]. *)
Definition truthy (v : json) : bool :=
  match v with
  | JNull => false
  | JBool b => b
  | JInt z => negb (z =? 0)
  | JFloat (S754_zero _) => false
  | JFloat _ => true
  | JStr s => negb (String.eqb s "")
  | JArr l => match l with [] => false | _ :: _ => true end
  | JObj kvs => match kvs with [] => false | _ :: _ => true end
  end.

Fixpoint assoc {A} (k : string) (kvs : list (string * A)) : option A :=
  match kvs with
  | [] => None
  | (k', v) :: rest => if String.eqb k k' then Some v else assoc k rest
  end.

Definition is_str (k : string) (v : json) : bool :=
  match v with
  | JStr s => String.eqb s k
  | _ => false
  end.

(** [k in v] for a string [k]: key of a dict, element of a list, substring
    of a string; anything else is not iterable. *)
Definition py_in (k : string) (v : json) : outcome bool :=
  match v with
  | JObj kvs => Returned (match assoc k kvs with Some _ => true | None => false end)
  | JArr l => Returned (existsb (is_str k) l)
  | JStr s => Returned (str_contains k s)
  | JNull | JBool _ | JInt _ | JFloat _ => Raised TypeError
  end.

(** [v[k]] for a string [k]. *)
Definition py_getitem (v : json) (k : string) : outcome json :=
  match v with
  | JObj kvs =>
      match assoc k kvs with
      | Some x => Returned x
      | None => Raised KeyError
      end
  | _ => Raised TypeError
  end.

(** [v.get(k, default)]: only a dict has the method. *)
Definition py_get (v : json) (k : string) (default : json) : outcome json :=
  match v with
  | JObj kvs =>
      Returned (match assoc k kvs with Some x => x | None => default end)
  | _ => Raised AttributeError
  end.

(** [k in v and v[k]], as a truth value. *)
Definition has_truthy (k : string) (v : json) : outcome bool :=
  obind (py_in k v) (fun b =>
    if b then obind (py_getitem v k) (fun x => Returned (truthy x))
    else Returned false).

End Py.

Export Py.

(** ** Effects *)

(** An f-string, kept as its pieces: literal text (and interpolated
    strings), [{n}] for an integer, [{x:.4f}] for a float, [{v}] for any
    other object and [{str(e)}] for an exception. *)
Inductive piece : Type :=
| Txt (s : string)
| Num (z : Z)
| F4 (f : float)
| Val (v : json)
| StrExn (e : exn).

Definition message : Type := list piece.

Record request : Type := {
  url : string;
  headers : list (string * string);
  params : list (string * json);
  timeout : Z
}.

(** What the server sent back: the status code and what [response.json()]
    does with the body. *)
Record response : Type := {
  status_code : Z;
  json_body : outcome json
}.

(** What one call of [requests.get] does. *)
Inductive http_outcome : Type :=
| Raises (e : exn)
| Responds (r : response).

(** The effects of a call, in the order they happen. *)
Inductive event : Type :=
| HttpGet (r : request)
| Sleep (seconds : Z)
| StError (m : message)
| StWarning (m : message).

Definition trace : Type := list event.

(** The number of HTTP requests issued. *)
Fixpoint n_requests (t : trace) : nat :=
  match t with
  | [] => O
  | HttpGet _ :: t' => S (n_requests t')
  | _ :: t' => n_requests t'
  end.

(** The delays slept, in order. *)
Fixpoint sleeps (t : trace) : list Z :=
  match t with
  | [] => []
  | Sleep s :: t' => s :: sleeps t'
  | _ :: t' => sleeps t'
  end.

(** The Streamlit messages shown, in order. *)
Fixpoint messages (t : trace) : list event :=
  match t with
  | [] => []
  | HttpGet _ :: t' | Sleep _ :: t' => messages t'
  | e :: t' => e :: messages t'
  end.

(** A statement: it extends the trace and either yields a value or raises. *)
Definition M (A : Type) : Type := trace -> outcome A * trace.

Definition ret {A} (a : A) : M A := fun t => (Returned a, t).

Definition raise {A} (e : exn) : M A := fun t => (Raised e, t).

Definition bind {A B} (m : M A) (k : A -> M B) : M B :=
  fun t =>
    match m t with
    | (Returned a, t') => k a t'
    | (Raised e, t') => (Raised e, t')
    end.

Notation "x <- m ;; k" := (bind m (fun x => k))
  (at level 100, m at next level, right associativity).
Notation "m ;;; k" := (bind m (fun _ => k))
  (at level 100, right associativity).

(** An expression without effects, used as a statement. *)
Definition lift {A} (x : outcome A) : M A := fun t => (x, t).

Definition emit (e : event) : M unit := fun t => (Returned tt, t ++ [e]).

Definition st_error (m : message) : M unit := emit (StError m).

Definition st_warning (m : message) : M unit := emit (StWarning m).

(** [try: body  except ...: handler e].  Every exception of the model is an
    [Exception], and each [try] of the fetch functions ends with
    [except Exception], so the handler is total.  An exception raised by the
    handler itself is not caught again. *)
Definition try_except {A} (body : M A) (handler : exn -> M A) : M A :=
  fun t =>
    match body t with
    | (Returned a, t') => (Returned a, t')
    | (Raised e, t') => handler e t'
    end.

(** Running a call from the empty trace. *)
Definition run {A} (m : M A) : outcome A * trace := m [].

(** How a pass through the body of a [for] loop ends. *)
Inductive flow (A : Type) : Type :=
| Continue
| Return (a : A).
Arguments Continue {A}.
Arguments Return {A} a.

(** ** The module *)

Definition OPENSEA_API_KEY : string := "YOUR_OPENSEA_API_KEY".
Definition OPENSEA_API_BASE : string := "https://api.opensea.io/api/v2".

(** The names bound at module level when the fetch functions are called: the
    imports of lines 1-5 and 22, the two constants, the three functions and
    the variables of the sidebar and of the main page. *)
Definition module_globals : list string :=
  ["st"; "requests"; "pd"; "datetime"; "math"; "OPENSEA_API_KEY";
   "OPENSEA_API_BASE"; "os"; "get_collection_stats"; "get_recent_sales";
   "get_collection_assets"; "api_key_input"; "collection_slug"; "tab1";
   "tab2"; "tab3"].

Definition bound (globals : list string) (name : string) : bool :=
  existsb (String.eqb name) globals.

(** The gate of each fetch function: [api_key == "YOUR_OPENSEA_API_KEY"]. *)
Definition is_placeholder (api_key : string) : bool :=
  String.eqb api_key "YOUR_OPENSEA_API_KEY".

(** The credential gate as the specification words it: usable iff non-empty
    and not the placeholder. *)
Definition isUsable_spec (credential : string) : bool :=
  negb (String.eqb credential "") && negb (String.eqb credential "YOUR_OPENSEA_API_KEY").

Definition api_headers (api_key : string) : list (string * string) :=
  [("X-API-KEY", api_key); ("Accept", "application/json");
   ("User-Agent", "NFT-Dashboard/1.0")].

(** [response.raise_for_status()] of the requests library: an [HTTPError]
    carrying the response for a 4xx or 5xx status. *)
Definition raise_for_status (r : response) : M unit :=
  if (400 <=? status_code r) && (status_code r <? 600)
  then raise (RequestException (Some (status_code r)))
  else ret tt.

(** The requests of lines 44-53, 106-120 and 205-222. *)
Definition stats_request (slug api_key : string) : request :=
  {| url := OPENSEA_API_BASE +:+ "/collections/" +:+ slug +:+ "/stats";
     headers := api_headers api_key;
     params := [];
     timeout := 10 |}.

Definition sales_request (slug api_key : string) : request :=
  {| url := OPENSEA_API_BASE +:+ "/events/collection/" +:+ slug;
     headers := api_headers api_key;
     params := [("event_type", JStr "sale"); ("limit", JInt 20)];
     timeout := 30 |}.

Definition assets_request (slug api_key : string) (limit : Z) : request :=
  {| url := OPENSEA_API_BASE +:+ "/assets/collection/" +:+ slug;
     headers := api_headers api_key;
     params := [("limit", JInt limit); ("order_by", JStr "pk");
                ("order_direction", JStr "desc")];
     timeout := 60 |}.

Record StatsRecord : Type := {
  floor_price : float;
  volume : float;
  sales : Z;
  num_owners : Z
}.

Record SaleRow : Type := {
  NFT_Name : json;
  Token_ID : json;
  Price : message;
  Timestamp : json
}.

Section Fetch.

(** The libraries' part and the network: [net n] is what the [n]-th request
    of the call (from 0) meets. *)
Variable rt : runtime.
Variable net : nat -> http_outcome.

Definition requests_get (req : request) : M response :=
  fun t =>
    match net (n_requests t) with
    | Raises e => (Raised e, t ++ [HttpGet req])
    | Responds r => (Returned r, t ++ [HttpGet req])
    end.

(** [time.sleep(seconds)]: the name [time] is looked up first, among the
    module's globals ([time] is neither a local of the function nor a
    builtin). *)
Definition time_sleep (globals : list string) (seconds : Z) : M unit :=
  if bound globals "time" then emit (Sleep seconds)
  else raise (NameError "time").

(** *** [get_collection_stats], lines 26-89 *)

(** [conv(data['total'].get(k, 0))], one entry of the returned dict. *)
Definition total_field {A} (data : json) (k : string) (conv : json -> outcome A) : outcome A :=
  obind (py_getitem data "total") (fun total =>
  obind (py_get total k (JInt 0)) conv).

Definition stats_of (data : json) : outcome StatsRecord :=
  obind (total_field data "floor_price" (py_float rt)) (fun fp =>
  obind (total_field data "volume" (py_float rt)) (fun vol =>
  obind (total_field data "sales" (py_int rt)) (fun sl =>
  obind (total_field data "num_owners" (py_int rt)) (fun own =>
  Returned {| floor_price := fp; volume := vol; sales := sl; num_owners := own |})))).

Definition get_collection_stats (slug api_key : string) : M (option StatsRecord) :=
  if is_placeholder api_key then
    st_error [Txt "⚠️ Please set your OpenSea API key. Check the sidebar for instructions."] ;;;
    ret None
  else
    try_except
      (response <- requests_get (stats_request slug api_key) ;;
       if status_code response =? 401 then
         st_error [Txt "🚫 Invalid API key. Please check your OpenSea API key."] ;;;
         ret None
       else if status_code response =? 404 then
         st_error [Txt "❌ Collection '"; Txt slug; Txt "' not found. Please check the slug."] ;;;
         ret None
       else if status_code response =? 429 then
         st_error [Txt "⏰ Rate limit exceeded. Please wait a moment and try again."] ;;;
         ret None
       else
         raise_for_status response ;;;
         data <- lift (json_body response) ;;
         has_total <- lift (py_in "total" data) ;;
         if has_total then
           record <- lift (stats_of data) ;;
           ret (Some record)
         else
           st_warning [Txt "No statistics data available for this collection."] ;;;
           ret None)
      (fun e =>
         match e with
         | Timeout =>
             st_error [Txt "⏱️ Request timed out. Please try again."] ;;;
             ret None
         | RequestException _ =>
             st_error [Txt "🔥 API Error: "; StrExn e] ;;;
             ret None
         | _ =>
             st_error [Txt "💥 Unexpected error: "; StrExn e] ;;;
             ret None
         end).

(** *** [get_recent_sales], lines 92-187 *)

(** [event.get(k, default)] on a row: the cell under label [k]. *)
Definition Series_get (event : list (string * json)) (k : string) (default : json) : json :=
  match assoc k event with
  | Some x => x
  | None => default
  end.

(** Lines 157-164.  The bare [except:] keeps the raw value whenever the
    parse, or the call of [replace] on something that is not a string,
    fails. *)
Definition format_timestamp (timestamp : json) : json :=
  if truthy timestamp then
    match timestamp with
    | JStr s =>
        match fromisoformat_strftime rt (str_replace "Z" "+00:00" s) with
        | Some formatted => JStr formatted
        | None => timestamp
        end
    | _ => timestamp
    end
  else JStr "Unknown".

(** Line 143: [float(event.get('total_price', 0)) / (10**18)]. *)
Definition sale_price (event : list (string * json)) : outcome float :=
  obind (py_float rt (Series_get event "total_price" (JInt 0))) (fun wei =>
  Returned (fdiv wei (float_of_Z (10 ^ 18)))).

(** Lines 146-151. *)
Definition sale_asset (event : list (string * json)) : outcome (json * json) :=
  match assoc "asset" event with
  | Some asset =>
      if truthy asset then
        obind (py_get asset "name" (JStr "Unknown")) (fun nft_name =>
        obind (py_get asset "identifier" (JStr "Unknown")) (fun nft_id =>
        Returned (nft_name, nft_id)))
      else Returned (JStr "Unknown", JStr "Unknown")
  | None => Returned (JStr "Unknown", JStr "Unknown")
  end.

(** The body of the per-event [try], lines 142-171. *)
Definition process_event (event : list (string * json)) : outcome SaleRow :=
  obind (sale_price event) (fun total_price =>
  obind (sale_asset event) (fun names =>
  obind (py_get (Series_get event "payment_token" (JObj [])) "symbol" (JStr "ETH"))
    (fun payment_token =>
  Returned {| NFT_Name := fst names;
              Token_ID := snd names;
              Price := [F4 total_price; Txt " "; Val payment_token];
              Timestamp := format_timestamp (Series_get event "event_timestamp" (JStr "")) |}))).

(** The loop of lines 140-173: an event whose processing raises is skipped. *)
Fixpoint process_events (events : list (list (string * json))) : list SaleRow :=
  match events with
  | [] => []
  | event :: rest =>
      match process_event event with
      | Returned row => row :: process_events rest
      | Raised _ => process_events rest
      end
  end.

Definition get_recent_sales (slug api_key : string) : M (option (list SaleRow)) :=
  if is_placeholder api_key then ret None
  else
    try_except
      (response <- requests_get (sales_request slug api_key) ;;
       if status_code response =? 401 then ret None
       else if status_code response =? 404 then ret None
       else if status_code response =? 429 then
         st_warning [Txt "⏰ Rate limit exceeded for sales data."] ;;;
         ret None
       else
         raise_for_status response ;;;
         data <- lift (json_body response) ;;
         has_events <- lift (has_truthy "asset_events" data) ;;
         if has_events then
           asset_events <- lift (py_getitem data "asset_events") ;;
           rows <- lift (DataFrame_iterrows rt asset_events) ;;
           ret (Some (process_events rows))
         else ret (Some []))
      (fun e =>
         match e with
         | Timeout =>
             st_warning [Txt "⏱️ Sales data request timed out."] ;;;
             ret None
         | RequestException _ =>
             st_warning [Txt "🔥 Failed to fetch recent sales: "; StrExn e] ;;;
             ret None
         | _ =>
             st_warning [Txt "💥 Error processing sales data: "; StrExn e] ;;;
             ret None
         end).

(** *** [get_collection_assets], lines 190-261 *)

Definition max_retries : nat := 3.

(** One pass through the body of the [for] loop, lines 221-258.  The value
    returned is the Python object itself: [JNull] is [None], [JArr []] is
    the empty list. *)
Definition assets_attempt (globals : list string) (slug api_key : string)
    (limit : Z) (attempt : nat) : M (flow json) :=
  try_except
    (response <- requests_get (assets_request slug api_key limit) ;;
     if status_code response =? 401 then
       st_error [Txt "🚫 Invalid API key for assets. Please check your OpenSea API key."] ;;;
       ret (Return JNull)
     else if status_code response =? 404 then
       st_warning [Txt "❌ Collection '"; Txt slug; Txt "' not found for assets."] ;;;
       ret (Return (JArr []))
     else if status_code response =? 429 then
       st_warning [Txt "⏰ Rate limit exceeded for assets data. Retrying in ";
                   Num (2 ^ Z.of_nat attempt); Txt " seconds..."] ;;;
       time_sleep globals (2 ^ Z.of_nat attempt) ;;;
       ret Continue
     else
       raise_for_status response ;;;
       data <- lift (json_body response) ;;
       has_nfts <- lift (has_truthy "nfts" data) ;;
       if has_nfts then
         nfts <- lift (py_getitem data "nfts") ;;
         ret (Return nfts)
       else ret (Return (JArr [])))
    (fun e =>
       match e with
       | Timeout =>
           st_warning [Txt "⏱️ Assets data request timed out (attempt ";
                       Num (Z.of_nat attempt + 1); Txt "/"; Num (Z.of_nat max_retries);
                       Txt "). Retrying..."] ;;;
           time_sleep globals (2 ^ Z.of_nat attempt) ;;;
           ret Continue
       | RequestException resp =>
           let fail :=
             st_error [Txt "🔥 Failed to fetch collection assets: "; StrExn e] ;;;
             ret (Return JNull) in
           match resp with
           | Some status =>
               if 500 <=? status then
                 st_warning [Txt "🚨 Server error "; Num status;
                             Txt " (attempt "; Num (Z.of_nat attempt + 1); Txt "/";
                             Num (Z.of_nat max_retries); Txt "). Retrying in ";
                             Num (2 ^ Z.of_nat attempt); Txt " seconds..."] ;;;
                 time_sleep globals (2 ^ Z.of_nat attempt) ;;;
                 ret Continue
               else fail
           | None => fail
           end
       | _ =>
           st_error [Txt "💥 Error processing assets data: "; StrExn e] ;;;
           ret (Return JNull)
       end).

(** The [for attempt in range(max_retries)] loop and the two lines after it. *)
Fixpoint assets_loop (globals : list string) (slug api_key : string)
    (limit : Z) (attempts : list nat) : M json :=
  match attempts with
  | [] =>
      st_error [Txt "❌ Failed to fetch assets after "; Num (Z.of_nat max_retries);
                Txt " attempts due to timeout or rate limit."] ;;;
      ret JNull
  | attempt :: rest =>
      r <- assets_attempt globals slug api_key limit attempt ;;
      match r with
      | Continue => assets_loop globals slug api_key limit rest
      | Return v => ret v
      end
  end.

(** The function in a module whose global names are [globals]. *)
Definition get_collection_assets_in (globals : list string) (slug api_key : string)
    (limit : Z) : M json :=
  if is_placeholder api_key then ret JNull
  else assets_loop globals slug api_key limit (seq 0 max_retries).

(** The function as the module defines it. *)
Definition get_collection_assets (slug api_key : string) (limit : Z) : M json :=
  get_collection_assets_in module_globals slug api_key limit.

End Fetch.

(** ** The asset grid, lines 396-402 *)

Definition rewrite_image_url (image_url : string) : string :=
  if String.prefix "ipfs://" image_url
  then "https://ipfs.io/ipfs/" +:+ str_replace "ipfs://" "" image_url
  else image_url.

(** The URL handed to [st.image] for one asset, [None] when the grid shows
    "No image URL" instead. *)
Definition asset_image (nft : json) : outcome (option string) :=
  obind (py_get nft "image_url" (JStr "")) (fun image_url =>
  if truthy image_url then
    match image_url with
    | JStr s => Returned (Some (rewrite_image_url s))
    | _ => Raised AttributeError
    end
  else Returned None).

(** ** The result cache, [@st.cache_data(ttl=300)] on lines 25, 91 and 189 *)

Module ResultCache.

Definition ttl : Z := 300.

(** A key: (endpoint, collection identifier, parameters). *)
Definition cache_key : Type := string * string * list string.

Section Cache.

(** [X] is what a fetch yields when it yields something, [W] the world the
    fetch function acts on. *)
Context {X W : Type}.

(** A cached value is a result or its absence. *)
Record CacheEntry : Type := {
  value : option X;
  expires_at : Z
}.

(** Modelled from the spec: the decorator [st.cache_data] belongs to the
    Streamlit library and is not part of the source.  Section 4.4:
    [getOrFetch(key, ttlSeconds, fetchFn)] memoizes the result of [fetchFn]
    for [ttlSeconds] per distinct key; within the window a caller receives
    the cached value without invoking [fetchFn] again; an expired entry is
    recomputed on the next access and replaces the stale one; an absent
    result is cached the same as a present one.  [now] is the time of the
    call, in seconds. *)
Definition getOrFetch (key : cache_key) (ttlSeconds : Z) (fetchFn : W -> option X * W)
    (now : Z) (cache : gmap cache_key CacheEntry) (w : W)
    : option X * gmap cache_key CacheEntry * W :=
  let fetch :=
    let '(v, w') := fetchFn w in
    (v, <[key := {| value := v; expires_at := now + ttlSeconds |}]> cache, w') in
  match cache !! key with
  | Some entry => if now <? expires_at entry then (value entry, cache, w) else fetch
  | None => fetch
  end.

(** The key has no unexpired entry at time [now]. *)
Definition stale (key : cache_key) (now : Z) (cache : gmap cache_key CacheEntry) : Prop :=
  match cache !! key with
  | Some entry => expires_at entry <= now
  | None => True
  end.

(** A fetch function that also counts its invocations. *)
Definition counted (fetchFn : W -> option X * W) : nat * W -> option X * (nat * W) :=
  fun s =>
    let '(v, w') := fetchFn (snd s) in
    (v, (S (fst s), w')).

End Cache.

End ResultCache.

(** ** Classifying what a request meets *)

(** The fetch failed: the request raised, the status is a 4xx or a 5xx, or
    the body is not JSON. *)
Definition fetch_fails (o : http_outcome) : bool :=
  match o with
  | Raises _ => true
  | Responds r =>
      ((400 <=? status_code r) && (status_code r <? 600)) ||
      match json_body r with
      | Raised _ => true
      | Returned _ => false
      end
  end.

(** The exceptions after which the handlers of [get_collection_assets] go
    for another attempt: a timeout, and a request exception whose response
    has a status of 500 or more. *)
Definition retryable_exn (e : exn) : bool :=
  match e with
  | Timeout => true
  | RequestException (Some status) => 500 <=? status
  | _ => false
  end.

(** The outcomes that send [get_collection_assets] to a retry branch
    (lines 230-233 and 244-252). *)
Definition retryable (o : http_outcome) : bool :=
  match o with
  | Raises e => retryable_exn e
  | Responds r =>
      if status_code r =? 401 then false
      else if status_code r =? 404 then false
      else if status_code r =? 429 then true
      else if (400 <=? status_code r) && (status_code r <? 600)
      then 500 <=? status_code r
      else
        match json_body r with
        | Raised e => retryable_exn e
        | Returned _ => false
        end
  end.

(** ** Inputs for the examples *)

(** A network that answers every request the same way. *)
Definition always (o : http_outcome) : nat -> http_outcome := fun _ => o.

Definition respond (status : Z) (body : outcome json) : http_outcome :=
  Responds {| status_code := status; json_body := body |}.

Definition is_number (v : json) : bool :=
  match v with
  | JBool _ | JInt _ | JFloat _ => true
  | _ => false
  end.

(** A runtime for the examples: [float] and [int] accept integer literals
    only, no timestamp parses, and a frame is built from a list holding a
    single dict without numeric cells (strings, [None], lists and dicts are
    cells that pandas hands back as they are), whose one row is that dict.
    It answers for the inputs of the examples only. *)
Definition example_runtime : runtime :=
  {| float_of_str := fun _ => None;
     int_of_str := fun _ => None;
     DataFrame_iterrows := fun v =>
       match v with
       | JArr [JObj kvs] =>
           if existsb (fun kv => is_number (snd kv)) kvs
           then Raised ValueError
           else Returned [kvs]
       | _ => Raised ValueError
       end;
     fromisoformat_strftime := fun _ => None |}.

(** A cache key of the stats endpoint, and a fetch that finds nothing. *)
Definition stats_key : ResultCache.cache_key :=
  ("get_collection_stats", "azuki", ["key"]).

Definition fetch_nothing : unit -> option StatsRecord * unit :=
  fun w => (None, w).

(** ** Reading a trace *)

(** The requests issued, in order. *)
Fixpoint requests_of (t : trace) : list request :=
  match t with
  | [] => []
  | HttpGet r :: t' => r :: requests_of t'
  | _ :: t' => requests_of t'
  end.

Definition is_warning (e : event) : bool :=
  match e with
  | StWarning _ => true
  | _ => false
  end.

(** ** The page, lines 264-276 and 305-309, 432-435 *)

(** Lines 268-276: the key the page works with, from the sidebar input. *)
Definition sidebar_key (api_key_input : string) : string :=
  if negb (is_placeholder api_key_input) then api_key_input else OPENSEA_API_KEY.

(** What the page goes on with: the three results, or one of the two
    prompts of lines 433 and 435. *)
Inductive page_state : Type :=
| Fetched (stats : option StatsRecord) (recent_sales_df : option (list SaleRow))
    (assets : json)
| PromptForKey
| PromptForSlug.

(** Lines 305-309 and 432-435, on a run that finds nothing cached: the
    three fetches, in the order of the source, each with the default limit. *)
Definition load_page (rt : runtime) (net : nat -> http_outcome)
    (api_key_input collection_slug : string) : M page_state :=
  let key := sidebar_key api_key_input in
  if truthy (JStr collection_slug) && negb (is_placeholder key) then
    stats <- get_collection_stats rt net collection_slug key ;;
    recent_sales_df <- get_recent_sales rt net collection_slug key ;;
    assets <- get_collection_assets net collection_slug key 20 ;;
    ret (Fetched stats recent_sales_df assets)
  else if is_placeholder key then ret PromptForKey
  else ret PromptForSlug.

(** ** The "Browse Assets" tab, lines 380-430 *)

(** What the tab puts on the page. *)
Inductive element : Type :=
| Subheader (m : message)
| Image (image_url : string)
| Info (m : message)
| Caption (m : message)
| Written (m : message)
| Warn (m : message).

(** What a piece of the page shows, and the exception that stopped it, if
    one did: nothing of the tab catches an exception, except around
    [st.image]. *)
Definition rendering : Type := list element * option exn.

(** Lines 396-412.  [image_fails] tells for which URLs [st.image] raises. *)
Definition render_image (image_fails : string -> bool) (nft : json) : rendering :=
  match asset_image nft with
  | Raised e => ([], Some e)
  | Returned None => ([Info [Txt "🖼️ No image URL"]], None)
  | Returned (Some image_url) =>
      if image_fails image_url
      then ([Info [Txt "🖼️ Image not available"];
             Caption [Txt "Failed URL: "; Txt image_url]], None)
      else ([Image image_url], None)
  end.

(** Lines 415-417: the two captions of an asset. *)
Definition captions (kvs : list (string * json)) : list element :=
  let identifier :=
    match assoc "identifier" kvs with
    | Some x => x
    | None => JStr "Unknown"
    end in
  [Caption match assoc "name" kvs with
           | Some nft_name => [Txt "**"; Val nft_name; Txt "**"]
           | None => [Txt "**"; Txt "NFT #"; Val identifier; Txt "**"]
           end;
   Caption [Txt "Token ID: "; Val identifier]].

(** Lines 424-426: the line of one trait. *)
Definition trait_line (kvs : list (string * json)) : element :=
  Written [Txt "**";
           Val match assoc "trait_type" kvs with Some x => x | None => JStr "Unknown" end;
           Txt ":** ";
           Val match assoc "value" kvs with Some x => x | None => JStr "Unknown" end].

(** The loop of lines 423-426 over a list: a trait that is not a dict has
    no [get], and the loop stops there. *)
Fixpoint render_trait_list (traits : list json) : rendering :=
  match traits with
  | [] => ([], None)
  | JObj kvs :: rest =>
      let '(lines, fault) := render_trait_list rest in
      (trait_line kvs :: lines, fault)
  | _ :: _ => ([], Some AttributeError)
  end.

(** Lines 421-428.  Iterating a string or a dict yields strings, which have
    no [get]; a number is not iterable. *)
Definition render_traits (traits : json) : rendering :=
  if truthy traits then
    match traits with
    | JArr l => render_trait_list l
    | JStr _ | JObj _ => ([], Some AttributeError)
    | _ => ([], Some TypeError)
    end
  else ([Written [Txt "No traits available"]], None).

(** Lines 394-428: the card of one asset. *)
Definition render_card (image_fails : string -> bool) (nft : json) : rendering :=
  match render_image image_fails nft with
  | (shown, Some e) => (shown, Some e)
  | (shown, None) =>
      match nft with
      | JObj kvs =>
          let '(lines, fault) :=
            render_traits match assoc "traits" kvs with Some x => x | None => JArr [] end in
          (shown ++ captions kvs ++ lines, fault)
      | _ => (shown, Some AttributeError)
      end
  end.

Definition cols_per_row : nat := 4.

(** [range(start, stop, step)], for a positive [step]; [fuel] bounds the
    number of elements. *)
Fixpoint range_from (fuel start stop step : nat) : list nat :=
  match fuel with
  | O => []
  | S fuel' =>
      if (start <? stop)%nat
      then start :: range_from fuel' (start + step) stop step
      else []
  end.

Definition py_range (start stop step : nat) : list nat :=
  range_from stop start stop step.

(** A card and its place: the row that starts at asset [row_start], and the
    column. *)
Record placed : Type := {
  row_start : nat;
  column : nat;
  card : list element
}.

(** The inner loop, lines 391-428, over the columns [js] of the row that
    starts at asset [i]. *)
Fixpoint render_row (image_fails : string -> bool) (assets : list json) (i : nat)
    (js : list nat) : list placed * option exn :=
  match js with
  | [] => ([], None)
  | j :: js' =>
      if (i + j <? length assets)%nat then
        match assets !! (i + j)%nat with
        | Some nft =>
            match render_card image_fails nft with
            | (shown, Some e) =>
                ([{| row_start := i; column := j; card := shown |}], Some e)
            | (shown, None) =>
                let '(cards, fault) := render_row image_fails assets i js' in
                ({| row_start := i; column := j; card := shown |} :: cards, fault)
            end
        | None => ([], Some (Exception_ "IndexError"))
        end
      else render_row image_fails assets i js'
  end.

(** The outer loop, lines 388-389, over the starts of the rows. *)
Fixpoint render_rows (image_fails : string -> bool) (assets : list json)
    (starts : list nat) : list placed * option exn :=
  match starts with
  | [] => ([], None)
  | i :: rest =>
      match render_row image_fails assets i (seq 0 cols_per_row) with
      | (cards, Some e) => (cards, Some e)
      | (cards, None) =>
          let '(cards', fault) := render_rows image_fails assets rest in
          (cards ++ cards', fault)
      end
  end.

(** Lines 383-430, for a list of assets ([None] takes the branch of the
    empty list): the heading, the cards and the exception that stopped the
    tab, if any. *)
Definition browse_assets (image_fails : string -> bool) (collection_slug : string)
    (assets : list json) : element * (list placed * option exn) :=
  match assets with
  | [] => (Warn [Txt "No assets available for this collection."], ([], None))
  | _ :: _ =>
      (Subheader [Txt "Showing "; Num (Z.of_nat (length assets)); Txt " NFTs from '";
                  Txt collection_slug; Txt "'"],
       render_rows image_fails assets (py_range 0 (length assets) cols_per_row))
  end.

(** An asset the tab can show: a dict whose [image_url], when truthy, is a
    string, and whose [traits], when truthy, is a list of dicts. *)
Definition is_dict (v : json) : bool :=
  match v with
  | JObj _ => true
  | _ => false
  end.

Definition showable (nft : json) : bool :=
  match nft with
  | JObj kvs =>
      match assoc "image_url" kvs with
      | Some (JStr _) | None => true
      | Some image_url => negb (truthy image_url)
      end &&
      match assoc "traits" kvs with
      | Some (JArr l) => forallb is_dict l
      | None => true
      | Some traits => negb (truthy traits)
      end
  | _ => false
  end.

(** The card of asset [k], at its place in a grid of four columns. *)
Definition card_at (image_fails : string -> bool) (assets : list json) (k : nat) : placed :=
  {| row_start := 4 * (k / 4);
     column := k mod 4;
     card := match assets !! k with
             | Some nft => fst (render_card image_fails nft)
             | None => []
             end |}.

(** ** Rows that can be processed *)

(** The cells of a row on which lines 146-154 call [get] are dicts where
    they are there (an [asset] may also be falsy). *)
Definition well_formed_event (event : list (string * json)) : bool :=
  match assoc "asset" event with
  | Some cell => negb (truthy cell) || is_dict cell
  | None => true
  end &&
  match assoc "payment_token" event with
  | Some cell => is_dict cell
  | None => true
  end.

(** * Properties *)

(** ** Traces *)

Lemma n_requests_app (t1 t2 : trace) :
  n_requests (t1 ++ t2) = (n_requests t1 + n_requests t2)%nat.
Proof. induction t1 as [|[] t1 IH]; simpl; lia. Qed.

Lemma sleeps_app (t1 t2 : trace) : sleeps (t1 ++ t2) = sleeps t1 ++ sleeps t2.
Proof. induction t1 as [|[] t1 IH]; simpl; congruence. Qed.

(** Case analysis on the innermost scrutinee of the goal. *)
Ltac break_inner :=
  match goal with
  | |- context [match ?x with _ => _ end] =>
      lazymatch x with
      | context [match _ with _ => _ end] => fail
      | _ => destruct x eqn:?
      end
  end.

Ltac unfold_fetch :=
  unfold try_except, bind, requests_get, raise_for_status, time_sleep,
    st_warning, st_error, emit, ret, raise, lift.

(** Settles the status tests of a branch from bounds in the context. *)
Ltac decide_status :=
  repeat match goal with
  | |- context [?a =? ?b] => destruct (Z.eqb_spec a b); try lia
  | |- context [?a <=? ?b] => destruct (Z.leb_spec a b); try lia
  | |- context [?a <? ?b] => destruct (Z.ltb_spec a b); try lia
  end.

(** ** [get_collection_assets] in the module as written *)

(** [time] is not among the module's names. *)
Lemma time_is_unbound : bound module_globals "time" = false.
Proof. reflexivity. Qed.

(** Whatever the network does, a pass through the loop body issues one
    request, sleeps never, and never asks for another pass. *)
Lemma attempt_in_module net slug api_key limit attempt t :
  fst (assets_attempt net module_globals slug api_key limit attempt t)
    <> Returned Continue /\
  n_requests (snd (assets_attempt net module_globals slug api_key limit attempt t))
    = S (n_requests t) /\
  sleeps (snd (assets_attempt net module_globals slug api_key limit attempt t))
    = sleeps t.
Proof.
  unfold assets_attempt. unfold_fetch. rewrite time_is_unbound. cbv iota.
  repeat (break_inner; cbn [fst snd]);
    rewrite ?n_requests_app, ?sleeps_app; cbn [n_requests sleeps];
    rewrite ?app_nil_r; (split; [discriminate | split; [lia | reflexivity]]).
Qed.

(** The call is its first pass through the loop. *)
Lemma assets_first_pass net slug api_key limit :
  is_placeholder api_key = false ->
  run (get_collection_assets net slug api_key limit) =
  match assets_attempt net module_globals slug api_key limit 0 [] with
  | (Returned (Return v), t) => (Returned v, t)
  | (Returned Continue, t) =>
      assets_loop net module_globals slug api_key limit [1%nat; 2%nat] t
  | (Raised e, t) => (Raised e, t)
  end.
Proof.
  intros Hk. unfold run, get_collection_assets, get_collection_assets_in.
  rewrite Hk. cbn [seq max_retries assets_loop]. unfold bind at 1.
  destruct (assets_attempt _ _ _ _ _ _ _) as [[[|v]|e] t]; reflexivity.
Qed.

Lemma assets_one_request net slug api_key limit :
  is_placeholder api_key = false ->
  n_requests (snd (run (get_collection_assets net slug api_key limit))) = 1%nat /\
  sleeps (snd (run (get_collection_assets net slug api_key limit))) = [].
Proof.
  intros Hk. rewrite (assets_first_pass _ _ _ _ Hk).
  destruct (attempt_in_module net slug api_key limit 0 []) as (Hc & Hn & Hs).
  destruct (assets_attempt _ _ _ _ _ _ _) as [[[|v]|e] t]; cbn [fst snd] in *;
    try contradiction; auto.
Qed.

(** C1, on the code as written.  The assets fetch is meant to retry a 429
    response after a delay of [2 ** attempt] seconds.  In the module it does
    not: when the first response has status 429 the call issues that one
    request, does not sleep, and returns [None]. *)
Theorem C1_rate_limited_request_is_not_retried :
  run (get_collection_assets (always (respond 429 (Returned (JObj [])))) "azuki" "key" 20) =
  (Returned JNull,
   [HttpGet (assets_request "azuki" "key" 20);
    StWarning [Txt "⏰ Rate limit exceeded for assets data. Retrying in ";
               Num 1; Txt " seconds..."];
    StError [Txt "💥 Error processing assets data: "; StrExn (NameError "time")]]).
Proof. reflexivity. Qed.

(** C2.  Because [time] is never imported, every retry path of
    [get_collection_assets] fails at [time.sleep]: a 429 response ends in the
    generic handler and the call returns [None] after one request; a timeout
    or a server error raises the [NameError] inside an [except] clause, from
    where it leaves the function.  No input makes the call issue more than
    one request, or sleep. *)
Theorem C2_assets_issue_one_request net slug api_key limit :
  let result := run (get_collection_assets net slug api_key limit) in
  (n_requests (snd result) <= 1)%nat /\
  sleeps (snd result) = [] /\
  (is_placeholder api_key = false ->
   (forall r, net 0%nat = Responds r -> status_code r = 429 ->
      result =
      (Returned JNull,
       [HttpGet (assets_request slug api_key limit);
        StWarning [Txt "⏰ Rate limit exceeded for assets data. Retrying in ";
                   Num 1; Txt " seconds..."];
        StError [Txt "💥 Error processing assets data: ";
                 StrExn (NameError "time")]])) /\
   (net 0%nat = Raises Timeout ->
      fst result = Raised (NameError "time") /\ n_requests (snd result) = 1%nat) /\
   (forall r, net 0%nat = Responds r -> 500 <= status_code r < 600 ->
      fst result = Raised (NameError "time") /\ n_requests (snd result) = 1%nat) /\
   (forall status, net 0%nat = Raises (RequestException (Some status)) ->
      500 <= status ->
      fst result = Raised (NameError "time") /\ n_requests (snd result) = 1%nat)).
Proof.
  intros result. subst result.
  destruct (is_placeholder api_key) eqn:Hk.
  - unfold run, get_collection_assets, get_collection_assets_in. rewrite Hk.
    cbn. split; [lia | split; [reflexivity | discriminate]].
  - destruct (assets_one_request net slug api_key limit Hk) as [Hn Hs].
    split; [lia | split; [exact Hs |]]. intros _.
    rewrite (assets_first_pass _ _ _ _ Hk).
    unfold assets_attempt. unfold_fetch. rewrite time_is_unbound.
    cbn [n_requests].
    split; [| split; [| split]].
    + intros r Hr H429. rewrite Hr, H429. reflexivity.
    + intros Hr. rewrite Hr. split; reflexivity.
    + intros r Hr Hstatus. rewrite Hr.
      repeat (simpl; decide_status). split; reflexivity.
    + intros status Hr Hstatus. rewrite Hr.
      repeat (simpl; decide_status). split; reflexivity.
Qed.

(** The four retry paths, each at a network that takes it. *)
Lemma C2_assets_issue_one_request_witness :
  (run (get_collection_assets (always (respond 429 (Returned JNull))) "azuki" "key" 20) =
   (Returned JNull,
    [HttpGet (assets_request "azuki" "key" 20);
     StWarning [Txt "⏰ Rate limit exceeded for assets data. Retrying in ";
                Num 1; Txt " seconds..."];
     StError [Txt "💥 Error processing assets data: "; StrExn (NameError "time")]])) /\
  fst (run (get_collection_assets (always (Raises Timeout)) "azuki" "key" 20))
    = Raised (NameError "time") /\
  fst (run (get_collection_assets (always (respond 503 (Returned JNull))) "azuki" "key" 20))
    = Raised (NameError "time") /\
  fst (run (get_collection_assets (always (Raises (RequestException (Some 502)))) "azuki" "key" 20))
    = Raised (NameError "time").
Proof.
  split; [| split; [| split]].
  - destruct (C2_assets_issue_one_request
                (always (respond 429 (Returned JNull))) "azuki" "key" 20)
      as (_ & _ & H).
    destruct (H eq_refl) as (H429 & _). exact (H429 _ eq_refl eq_refl).
  - destruct (C2_assets_issue_one_request (always (Raises Timeout)) "azuki" "key" 20)
      as (_ & _ & H).
    destruct (H eq_refl) as (_ & Ht & _). exact (proj1 (Ht eq_refl)).
  - destruct (C2_assets_issue_one_request
                (always (respond 503 (Returned JNull))) "azuki" "key" 20)
      as (_ & _ & H).
    destruct (H eq_refl) as (_ & _ & H5 & _).
    refine (proj1 (H5 _ eq_refl _)). cbn. lia.
  - destruct (C2_assets_issue_one_request
                (always (Raises (RequestException (Some 502)))) "azuki" "key" 20)
      as (_ & _ & H).
    destruct (H eq_refl) as (_ & _ & _ & He).
    refine (proj1 (He 502 eq_refl _)). lia.
Defined.

(** ** The credential gate *)

Lemma is_placeholder_spec (api_key : string) :
  is_placeholder api_key = true <-> api_key = OPENSEA_API_KEY.
Proof. apply String.eqb_eq. Qed.

Lemma is_placeholder_false (api_key : string) :
  api_key <> OPENSEA_API_KEY -> is_placeholder api_key = false.
Proof. intros H. apply String.eqb_neq. exact H. Qed.

(** With a key that is not the placeholder, the stats fetch issues exactly
    one request and hands a value back. *)
Lemma stats_one_request rt net slug api_key :
  is_placeholder api_key = false ->
  n_requests (snd (run (get_collection_stats rt net slug api_key))) = 1%nat /\
  exists v, fst (run (get_collection_stats rt net slug api_key)) = Returned v.
Proof.
  intros Hk. unfold run, get_collection_stats. rewrite Hk. unfold_fetch.
  cbn [n_requests app].
  repeat (break_inner; cbn [fst snd]);
    rewrite ?n_requests_app; cbn [n_requests app]; (split; [lia | eauto]).
Qed.

Lemma sales_one_request rt net slug api_key :
  is_placeholder api_key = false ->
  n_requests (snd (run (get_recent_sales rt net slug api_key))) = 1%nat /\
  exists v, fst (run (get_recent_sales rt net slug api_key)) = Returned v.
Proof.
  intros Hk. unfold run, get_recent_sales. rewrite Hk. unfold_fetch.
  cbn [n_requests app].
  repeat (break_inner; cbn [fst snd]);
    rewrite ?n_requests_app; cbn [n_requests app]; (split; [lia | eauto]).
Qed.

(** C3, as the specification states it, fails: an empty credential is not
    usable in the specification's sense, and yet each of the three fetches
    sends it to the server. *)
Lemma C3_empty_credential_is_sent :
  isUsable_spec "" = false /\
  n_requests (snd (run (get_collection_stats example_runtime
                          (always (respond 200 (Returned (JObj [])))) "azuki" ""))) = 1%nat /\
  n_requests (snd (run (get_recent_sales example_runtime
                          (always (respond 200 (Returned (JObj [])))) "azuki" ""))) = 1%nat /\
  snd (run (get_collection_assets
              (always (respond 200 (Returned (JObj [])))) "azuki" "" 20))
    = [HttpGet (assets_request "azuki" "" 20)].
Proof. repeat split. Qed.

(** C3, amended.  With the placeholder each fetch returns [None] and issues
    no request.  The gate tests the placeholder and nothing else: it is the
    specification's [isUsable] on every non-empty credential and on no
    other, so that it lets the empty credential through. *)
Theorem C3_placeholder_gate rt net slug api_key limit :
  (api_key = OPENSEA_API_KEY ->
     fst (run (get_collection_stats rt net slug api_key)) = Returned None /\
     n_requests (snd (run (get_collection_stats rt net slug api_key))) = 0%nat /\
     run (get_recent_sales rt net slug api_key) = (Returned None, []) /\
     run (get_collection_assets net slug api_key limit) = (Returned JNull, [])) /\
  (is_placeholder api_key = true <-> api_key = OPENSEA_API_KEY) /\
  (is_placeholder api_key = negb (isUsable_spec api_key) <-> api_key <> "").
Proof.
  split; [| split].
  - intros ->. repeat split.
  - apply is_placeholder_spec.
  - split.
    + intros H ->. discriminate H.
    + intros Hne. unfold is_placeholder, isUsable_spec.
      apply String.eqb_neq in Hne. rewrite Hne. cbn [negb andb].
      rewrite negb_involutive. reflexivity.
Qed.

(** The placeholder, and an ordinary key. *)
Lemma C3_placeholder_gate_witness :
  run (get_recent_sales example_runtime (always (Raises Timeout)) "azuki"
         "YOUR_OPENSEA_API_KEY") = (Returned None, []) /\
  run (get_collection_assets (always (Raises Timeout)) "azuki"
         "YOUR_OPENSEA_API_KEY" 20) = (Returned JNull, []) /\
  is_placeholder "key" = negb (isUsable_spec "key").
Proof.
  split; [| split].
  - destruct (C3_placeholder_gate example_runtime (always (Raises Timeout)) "azuki"
                "YOUR_OPENSEA_API_KEY" 20) as [H _].
    destruct (H eq_refl) as (_ & _ & Hs & _). exact Hs.
  - destruct (C3_placeholder_gate example_runtime (always (Raises Timeout)) "azuki"
                "YOUR_OPENSEA_API_KEY" 20) as [H _].
    destruct (H eq_refl) as (_ & _ & _ & Ha). exact Ha.
  - destruct (C3_placeholder_gate example_runtime (always (Raises Timeout)) "azuki"
                "key" 20) as (_ & _ & H).
    apply H. discriminate.
Defined.

(** ** Errors *)

(** A failed stats fetch returns [None] and shows one [st.error] message. *)
Lemma stats_failure rt net slug api_key :
  is_placeholder api_key = false ->
  fetch_fails (net 0%nat) = true ->
  fst (run (get_collection_stats rt net slug api_key)) = Returned None /\
  exists m, messages (snd (run (get_collection_stats rt net slug api_key))) = [StError m].
Proof.
  intros Hk. unfold run, get_collection_stats, fetch_fails. rewrite Hk. unfold_fetch.
  cbn [n_requests app].
  repeat (break_inner; cbn [fst snd app messages orb andb]);
    intros; try discriminate; (split; [reflexivity | eauto]).
Qed.

(** A failed sales fetch returns [None]. *)
Lemma sales_failure rt net slug api_key :
  is_placeholder api_key = false ->
  fetch_fails (net 0%nat) = true ->
  fst (run (get_recent_sales rt net slug api_key)) = Returned None.
Proof.
  intros Hk. unfold run, get_recent_sales, fetch_fails. rewrite Hk. unfold_fetch.
  cbn [n_requests app].
  repeat (break_inner; cbn [fst snd app orb andb]);
    intros; try discriminate; reflexivity.
Qed.

(** A failed assets fetch that is not on a retry path returns [None], or
    the empty list when the status is 404. *)
Lemma assets_failure net slug api_key limit :
  is_placeholder api_key = false ->
  fetch_fails (net 0%nat) = true ->
  retryable (net 0%nat) = false ->
  fst (run (get_collection_assets net slug api_key limit)) =
  Returned match net 0%nat with
           | Responds r => if status_code r =? 404 then JArr [] else JNull
           | Raises _ => JNull
           end.
Proof.
  intros Hk. rewrite (assets_first_pass _ _ _ _ Hk).
  unfold assets_attempt, fetch_fails, retryable, retryable_exn. unfold_fetch.
  rewrite time_is_unbound. cbn [n_requests app].
  repeat (break_inner; cbn [fst snd app orb andb]);
    intros; try discriminate; try reflexivity;
    repeat match goal with
    | H : (_ =? _) = true |- _ => apply Z.eqb_eq in H
    end; exfalso; lia.
Qed.

(** C4, as the specification states it, fails: the value returned does not
    tell the error kinds apart.  The stats fetch returns the same [None]
    for an invalid key, for an unknown collection and for a response
    without totals, and the sales fetch behaves the same, effects included,
    for an invalid key and for an unknown collection. *)
Lemma C4_error_kinds_share_a_result :
  fst (run (get_collection_stats example_runtime
              (always (respond 401 (Returned (JObj [])))) "azuki" "key")) = Returned None /\
  fst (run (get_collection_stats example_runtime
              (always (respond 404 (Returned (JObj [])))) "azuki" "key")) = Returned None /\
  fst (run (get_collection_stats example_runtime
              (always (respond 200 (Returned (JObj [])))) "azuki" "key")) = Returned None /\
  run (get_recent_sales example_runtime
         (always (respond 401 (Returned (JObj [])))) "azuki" "key") =
  run (get_recent_sales example_runtime
         (always (respond 404 (Returned (JObj [])))) "azuki" "key").
Proof. repeat split. Qed.

(** C4, amended.  In [get_collection_stats] and [get_recent_sales] a failed
    fetch of any kind reaches the caller as the value [None], never as an
    uncaught fault.  In
    [get_collection_assets] a failed fetch that is not on a retry path
    returns [None], or the empty list for a 404, and the lines after the
    loop return [None] as well: no result is specific to exhausted
    retries. *)
Theorem C4_errors_return_None rt net slug api_key limit :
  is_placeholder api_key = false ->
  (exists v, fst (run (get_collection_stats rt net slug api_key)) = Returned v) /\
  (exists v, fst (run (get_recent_sales rt net slug api_key)) = Returned v) /\
  (fetch_fails (net 0%nat) = true ->
     fst (run (get_collection_stats rt net slug api_key)) = Returned None /\
     fst (run (get_recent_sales rt net slug api_key)) = Returned None /\
     (retryable (net 0%nat) = false ->
        fst (run (get_collection_assets net slug api_key limit)) =
        Returned match net 0%nat with
                 | Responds r => if status_code r =? 404 then JArr [] else JNull
                 | Raises _ => JNull
                 end)) /\
  (forall globals t,
     fst (assets_loop net globals slug api_key limit [] t) = Returned JNull).
Proof.
  intros Hk.
  split; [apply stats_one_request; exact Hk |].
  split; [apply sales_one_request; exact Hk |].
  split; [| reflexivity].
  intros Hf.
  split; [apply stats_failure; assumption |].
  split; [apply sales_failure; assumption |].
  intros Hr. apply assets_failure; assumption.
Qed.

(** A timeout in the stats fetch, a 403 in the assets fetch. *)
Lemma C4_errors_return_None_witness :
  fst (run (get_collection_stats example_runtime (always (Raises Timeout)) "azuki" "key"))
    = Returned None /\
  fst (run (get_collection_assets (always (respond 403 (Returned JNull))) "azuki" "key" 20))
    = Returned JNull.
Proof.
  split.
  - destruct (C4_errors_return_None example_runtime (always (Raises Timeout))
                "azuki" "key" 20 eq_refl) as (_ & _ & H & _).
    exact (proj1 (H eq_refl)).
  - destruct (C4_errors_return_None example_runtime
                (always (respond 403 (Returned JNull))) "azuki" "key" 20 eq_refl)
      as (_ & _ & H & _).
    destruct (H eq_refl) as (_ & _ & Ha). exact (Ha eq_refl).
Defined.

(** C5, as the specification states it, fails: for a response without
    totals the stats fetch returns [None], the very value it returns for a
    fetch error. *)
Lemma C5_no_data_is_the_error_value :
  fst (run (get_collection_stats example_runtime
              (always (respond 200 (Returned (JObj [("collection", JStr "azuki")]))))
              "azuki" "key")) =
  fst (run (get_collection_stats example_runtime
              (always (respond 500 (Returned (JObj [])))) "azuki" "key")).
Proof. reflexivity. Qed.

(** C5, amended.  For a 2xx response whose body is an object without the
    key [total], the stats fetch issues its one request, shows the warning
    "No statistics data available for this collection." and returns [None];
    a fetch error returns [None] too but shows an [st.error] message, so the
    two differ by the message only. *)
Theorem C5_missing_total_warns rt net slug api_key r kvs :
  is_placeholder api_key = false ->
  net 0%nat = Responds r ->
  200 <= status_code r < 300 ->
  json_body r = Returned (JObj kvs) ->
  assoc "total" kvs = None ->
  run (get_collection_stats rt net slug api_key) =
    (Returned None,
     [HttpGet (stats_request slug api_key);
      StWarning [Txt "No statistics data available for this collection."]]) /\
  (forall net', fetch_fails (net' 0%nat) = true ->
     fst (run (get_collection_stats rt net' slug api_key)) = Returned None /\
     exists m, messages (snd (run (get_collection_stats rt net' slug api_key)))
               = [StError m]).
Proof.
  intros Hk Hnet Hstatus Hbody Htotal. split.
  - unfold run, get_collection_stats. rewrite Hk. unfold_fetch.
    cbn [n_requests]. rewrite Hnet. cbn iota.
    decide_status. cbn [andb]. rewrite Hbody. cbn [py_in]. rewrite Htotal.
    reflexivity.
  - intros net' Hf. apply stats_failure; assumption.
Qed.

(** A 200 response that describes the collection and carries no totals. *)
Lemma C5_missing_total_warns_witness :
  run (get_collection_stats example_runtime
         (always (respond 200 (Returned (JObj [("collection", JStr "azuki")]))))
         "azuki" "key") =
  (Returned None,
   [HttpGet (stats_request "azuki" "key");
    StWarning [Txt "No statistics data available for this collection."]]).
Proof.
  refine (proj1 (C5_missing_total_warns example_runtime
                   (always (respond 200 (Returned (JObj [("collection", JStr "azuki")]))))
                   "azuki" "key" _ _ eq_refl eq_refl _ eq_refl eq_refl)).
  cbn. lia.
Defined.

(** C6, as the specification states it, fails: the sales fetch surfaces
    neither outcome (it shows nothing, and its 401 and 404 results are the
    same), and the assets fetch does not fail on a 404: it warns and returns
    the empty list, not the [None] of a failure. *)
Lemma C6_outcome_is_not_surfaced :
  run (get_recent_sales example_runtime
         (always (respond 401 (Returned JNull))) "azuki" "key") =
    (Returned None, [HttpGet (sales_request "azuki" "key")]) /\
  run (get_recent_sales example_runtime
         (always (respond 404 (Returned JNull))) "azuki" "key") =
    (Returned None, [HttpGet (sales_request "azuki" "key")]) /\
  fst (run (get_collection_assets
              (always (respond 404 (Returned JNull))) "azuki" "key" 20)) =
    Returned (JArr []) /\
  Returned (JArr []) <> @Returned json JNull.
Proof.
  split; [reflexivity |]. split; [reflexivity |].
  split; [reflexivity | discriminate].
Qed.

(** C6, amended.  On a 401 or a 404 each fetch issues exactly one request
    and returns at once.  The stats fetch returns [None] after an error
    message naming the cause; the sales fetch returns [None] and shows
    nothing; the assets fetch returns [None] after an error message on a
    401, and the empty list after a warning on a 404. *)
Theorem C6_unauthorized_and_not_found rt net slug api_key limit r :
  is_placeholder api_key = false ->
  net 0%nat = Responds r ->
  status_code r = 401 \/ status_code r = 404 ->
  run (get_collection_stats rt net slug api_key) =
    (Returned None,
     [HttpGet (stats_request slug api_key);
      StError (if status_code r =? 401
               then [Txt "🚫 Invalid API key. Please check your OpenSea API key."]
               else [Txt "❌ Collection '"; Txt slug;
                     Txt "' not found. Please check the slug."])]) /\
  run (get_recent_sales rt net slug api_key) =
    (Returned None, [HttpGet (sales_request slug api_key)]) /\
  run (get_collection_assets net slug api_key limit) =
    (if status_code r =? 401
     then (Returned JNull,
           [HttpGet (assets_request slug api_key limit);
            StError [Txt "🚫 Invalid API key for assets. Please check your OpenSea API key."]])
     else (Returned (JArr []),
           [HttpGet (assets_request slug api_key limit);
            StWarning [Txt "❌ Collection '"; Txt slug;
                       Txt "' not found for assets."]])).
Proof.
  intros Hk Hnet Hstatus.
  rewrite (assets_first_pass _ _ _ _ Hk).
  unfold run, get_collection_stats, get_recent_sales, assets_attempt.
  rewrite Hk. unfold_fetch. cbn [n_requests]. rewrite Hnet.
  destruct Hstatus as [-> | ->]; repeat split.
Qed.

(** A 404 in the assets fetch. *)
Lemma C6_unauthorized_and_not_found_witness :
  run (get_collection_assets (always (respond 404 (Returned JNull))) "azuki" "key" 20) =
  (Returned (JArr []),
   [HttpGet (assets_request "azuki" "key" 20);
    StWarning [Txt "❌ Collection '"; Txt "azuki"; Txt "' not found for assets."]]).
Proof.
  destruct (C6_unauthorized_and_not_found example_runtime
              (always (respond 404 (Returned JNull))) "azuki" "key" 20 _
              eq_refl eq_refl (or_intror eq_refl)) as (_ & _ & H).
  exact H.
Defined.

(** ** Sale prices *)

(** The float one: mantissa [2^52], exponent [-52]. *)
Lemma SFone_bits : SFone 53 1024 = S754_finite false 4503599627370496 (-52).
Proof. reflexivity. Qed.

Lemma one_eth_in_wei : fdiv (float_of_Z (10 ^ 18)) (float_of_Z (10 ^ 18)) = SFone 53 1024.
Proof. vm_compute. reflexivity. Qed.

Lemma process_events_app rt (l1 l2 : list (list (string * json))) :
  process_events rt (l1 ++ l2) = process_events rt l1 ++ process_events rt l2.
Proof.
  induction l1 as [|event l1 IH]; [reflexivity |].
  cbn [app process_events]. destruct (process_event rt event); rewrite IH; reflexivity.
Qed.

(** A well-formed row whose price converts is processed, and the amount of
    its [Price] is the converted price divided by [10**18]. *)
Lemma process_event_returns rt event wei :
  well_formed_event event = true ->
  py_float rt (Series_get event "total_price" (JInt 0)) = Returned wei ->
  exists row token,
    process_event rt event = Returned row /\
    Price row = [F4 (fdiv wei (float_of_Z (10 ^ 18))); Txt " "; Val token].
Proof.
  unfold well_formed_event. intros Hwf Hwei.
  apply andb_true_iff in Hwf as [Hasset Htoken].
  unfold process_event, sale_price. rewrite Hwei. cbn [obind].
  assert (Ha : exists names, sale_asset event = Returned names).
  { unfold sale_asset. destruct (assoc "asset" event) as [cell|]; [| eauto].
    destruct (truthy cell) eqn:Ht; [| eauto].
    cbn [negb orb] in Hasset. destruct cell; try discriminate.
    cbn [py_get obind]. eauto. }
  destruct Ha as [names ->]. cbn [obind].
  assert (Hp : exists token,
             py_get (Series_get event "payment_token" (JObj [])) "symbol" (JStr "ETH")
             = Returned token).
  { unfold Series_get. destruct (assoc "payment_token" event) as [cell|].
    - destruct cell; try discriminate. cbn [py_get]. eauto.
    - cbn [py_get]. eauto. }
  destruct Hp as [token ->]. cbn [obind].
  eexists. exists token. split; reflexivity.
Qed.



(** One sale of one ether, from the response to the row. *)
Example one_sale_of_one_eth :
  run (get_recent_sales example_runtime
         (always (respond 200 (Returned (JObj
            [("asset_events",
              JArr [JObj [("total_price", JStr "1000000000000000000");
                          ("asset", JObj [("name", JStr "Azuki #1");
                                          ("identifier", JStr "1")])]])]))))
         "azuki" "key") =
  (Returned (Some [{| NFT_Name := JStr "Azuki #1";
                      Token_ID := JStr "1";
                      Price := [F4 (SFone 53 1024); Txt " "; Val (JStr "ETH")];
                      Timestamp := JStr "Unknown" |}]),
   [HttpGet (sales_request "azuki" "key")]).
Proof. vm_compute. reflexivity. Qed.

(** ** Image URLs *)

Lemma replace_from_absent (old new s : string) :
  str_contains old s = false -> replace_from old new O s = s.
Proof.
  induction s as [|c s IH]; intros H; [reflexivity |].
  cbn [str_contains] in H. apply orb_false_iff in H as [Hp Hs].
  cbn [replace_from]. rewrite Hp. f_equal. exact (IH Hs).
Qed.

Lemma prefix_empty (s : string) : String.prefix "" s = true.
Proof. destruct s; reflexivity. Qed.

Lemma rewrite_ipfs (hash : string) :
  str_contains "ipfs://" hash = false ->
  rewrite_image_url ("ipfs://" +:+ hash) = "https://ipfs.io/ipfs/" +:+ hash.
Proof.
  intros H. unfold rewrite_image_url, str_replace.
  cbv [String.append]. cbn. rewrite !prefix_empty. cbn.
  rewrite (replace_from_absent _ _ _ H). reflexivity.
Qed.

(** C8, as the specification states it, fails twice.  The assets fetch
    returns the records as the server sent them, [ipfs://] URL included: the
    rewriting is done by the grid, at display.  And the grid removes every
    [ipfs://] of the URL, not the leading one only. *)
Lemma C8_assets_are_returned_unrewritten :
  fst (run (get_collection_assets
              (always (respond 200 (Returned (JObj
                 [("nfts", JArr [JObj [("image_url", JStr "ipfs://abc123")]])]))))
              "azuki" "key" 20)) =
    Returned (JArr [JObj [("image_url", JStr "ipfs://abc123")]]) /\
  JStr "ipfs://abc123" <> JStr "https://ipfs.io/ipfs/abc123" /\
  rewrite_image_url "ipfs://a/ipfs://b" = "https://ipfs.io/ipfs/a/b" /\
  rewrite_image_url "ipfs://a/ipfs://b" <> "https://ipfs.io/ipfs/a/ipfs://b".
Proof.
  split; [reflexivity |]. split; [discriminate |].
  split; [reflexivity | discriminate].
Qed.

(** C8, amended.  The assets fetch returns the list of the response
    unchanged.  When the grid displays an asset whose image URL is
    [ipfs://<hash>], with no further [ipfs://] inside [<hash>], the URL it
    hands to [st.image] is [https://ipfs.io/ipfs/<hash>]. *)
Theorem C8_ipfs_rewritten_at_display net slug api_key limit r kvs nfts fields hash :
  is_placeholder api_key = false ->
  net 0%nat = Responds r ->
  200 <= status_code r < 300 ->
  json_body r = Returned (JObj kvs) ->
  assoc "nfts" kvs = Some nfts ->
  truthy nfts = true ->
  assoc "image_url" fields = Some (JStr ("ipfs://" +:+ hash)) ->
  str_contains "ipfs://" hash = false ->
  fst (run (get_collection_assets net slug api_key limit)) = Returned nfts /\
  asset_image (JObj fields) = Returned (Some ("https://ipfs.io/ipfs/" +:+ hash)).
Proof.
  intros Hk Hnet Hstatus Hbody Hnfts Htruthy Himage Hhash. split.
  - rewrite (assets_first_pass _ _ _ _ Hk).
    unfold assets_attempt. unfold_fetch. cbn [n_requests]. rewrite Hnet. cbn iota.
    decide_status. cbn [andb]. rewrite Hbody.
    unfold has_truthy. cbn [py_in py_getitem obind]. rewrite Hnfts.
    cbn [obind]. rewrite Htruthy. reflexivity.
  - unfold asset_image. cbn [py_get obind]. rewrite Himage.
    cbn [truthy String.eqb append Ascii.eqb Bool.eqb negb].
    rewrite (rewrite_ipfs _ Hhash). reflexivity.
Qed.

(** One asset, fetched and then displayed. *)
Lemma C8_ipfs_rewritten_at_display_witness :
  asset_image (JObj [("identifier", JStr "7"); ("image_url", JStr "ipfs://abc123")])
  = Returned (Some "https://ipfs.io/ipfs/abc123").
Proof.
  refine (proj2 (C8_ipfs_rewritten_at_display
    (always (respond 200 (Returned (JObj
       [("nfts", JArr [JObj [("identifier", JStr "7");
                             ("image_url", JStr "ipfs://abc123")]])]))))
    "azuki" "key" 20 _ _ _
    [("identifier", JStr "7"); ("image_url", JStr "ipfs://abc123")] "abc123"
    eq_refl eq_refl _ eq_refl eq_refl eq_refl eq_refl eq_refl)).
  cbn. lia.
Defined.

(** ** Empty listings *)

(** C9, as the specification states it, fails: the empty list is also the
    result of an error.  A 404 is a failed fetch, and the assets fetch
    returns for it the value it returns for an empty listing. *)
Lemma C9_not_found_returns_the_empty_list :
  fetch_fails (respond 404 (Returned JNull)) = true /\
  fst (run (get_collection_assets
              (always (respond 404 (Returned JNull))) "azuki" "key" 20)) =
  fst (run (get_collection_assets
              (always (respond 200 (Returned (JObj [("nfts", JArr [])])))) "azuki" "key" 20)).
Proof. split; reflexivity. Qed.

(** C9, amended.  For a 2xx assets response with no assets (the key [nfts]
    is absent or holds the empty list) the assets fetch issues its one
    request, shows nothing and returns the empty list.  The empty list is
    not [None], which is what every failed fetch off the retry paths
    returns, the 404 apart: a 404 returns the empty list too, after a
    warning. *)
Theorem C9_empty_listing net slug api_key limit r kvs :
  is_placeholder api_key = false ->
  net 0%nat = Responds r ->
  200 <= status_code r < 300 ->
  json_body r = Returned (JObj kvs) ->
  assoc "nfts" kvs = None \/ assoc "nfts" kvs = Some (JArr []) ->
  run (get_collection_assets net slug api_key limit) =
    (Returned (JArr []), [HttpGet (assets_request slug api_key limit)]) /\
  Returned (JArr []) <> Returned JNull /\
  (forall net',
     fetch_fails (net' 0%nat) = true ->
     retryable (net' 0%nat) = false ->
     (forall r', net' 0%nat = Responds r' -> status_code r' <> 404) ->
     fst (run (get_collection_assets net' slug api_key limit)) = Returned JNull) /\
  (forall net' r',
     net' 0%nat = Responds r' ->
     status_code r' = 404 ->
     run (get_collection_assets net' slug api_key limit) =
     (Returned (JArr []),
      [HttpGet (assets_request slug api_key limit);
       StWarning [Txt "❌ Collection '"; Txt slug; Txt "' not found for assets."]])).
Proof.
  intros Hk Hnet Hstatus Hbody Hnfts.
  split; [| split; [discriminate | split]].
  - rewrite (assets_first_pass _ _ _ _ Hk).
    unfold assets_attempt. unfold_fetch. cbn [n_requests]. rewrite Hnet. cbn iota.
    decide_status. cbn [andb]. rewrite Hbody.
    unfold has_truthy. cbn [py_in py_getitem obind].
    destruct Hnfts as [-> | ->]; reflexivity.
  - intros net' Hf Hr Hnot.
    rewrite (assets_failure net' slug api_key limit Hk Hf Hr).
    destruct (net' 0%nat) as [e|r']; [reflexivity |].
    destruct (Z.eqb_spec (status_code r') 404) as [H404|]; [| reflexivity].
    exfalso. exact (Hnot r' eq_refl H404).
  - intros net' r' Hnet' H404.
    rewrite (assets_first_pass _ _ _ _ Hk).
    unfold assets_attempt. unfold_fetch. cbn [n_requests]. rewrite Hnet', H404.
    reflexivity.
Qed.

(** An empty page of assets, and a refused key. *)
Lemma C9_empty_listing_witness :
  run (get_collection_assets
         (always (respond 200 (Returned (JObj [("nfts", JArr []); ("next", JNull)]))))
         "azuki" "key" 20) =
    (Returned (JArr []), [HttpGet (assets_request "azuki" "key" 20)]) /\
  fst (run (get_collection_assets
              (always (respond 403 (Returned JNull))) "azuki" "key" 20)) = Returned JNull.
Proof.
  destruct (C9_empty_listing
              (always (respond 200 (Returned (JObj [("nfts", JArr []); ("next", JNull)]))))
              "azuki" "key" 20 _ _ eq_refl eq_refl ltac:(cbn; lia) eq_refl
              (or_intror eq_refl)) as (Hempty & _ & Herr & _).
  split; [exact Hempty |].
  apply (Herr (always (respond 403 (Returned JNull))) eq_refl eq_refl).
  intros r' [= <-]. discriminate.
Defined.

(** ** The result cache *)

Module CacheFacts.
Import ResultCache.

Section WithFetch.

Context {X W : Type}.

Implicit Types (key : cache_key) (cache : gmap cache_key (@CacheEntry X)).

(** An unexpired entry answers the call: the fetch function is not invoked
    and the cache is left as it is. *)
Lemma getOrFetch_hit key ttlSeconds (fetchFn : W -> option X * W) now cache w entry :
  cache !! key = Some entry ->
  now < expires_at entry ->
  getOrFetch key ttlSeconds fetchFn now cache w = (value entry, cache, w).
Proof.
  intros Hl Hnow. unfold getOrFetch. rewrite Hl.
  destruct (Z.ltb_spec now (expires_at entry)); [reflexivity | lia].
Qed.

(** Without an unexpired entry the fetch function is invoked, and its
    result, present or absent, is stored for [ttlSeconds]. *)
Lemma getOrFetch_miss key ttlSeconds (fetchFn : W -> option X * W) now cache w :
  stale key now cache ->
  getOrFetch key ttlSeconds fetchFn now cache w =
  (fst (fetchFn w),
   <[key := {| value := fst (fetchFn w); expires_at := now + ttlSeconds |}]> cache,
   snd (fetchFn w)).
Proof.
  unfold stale, getOrFetch. intros Hs.
  destruct (fetchFn w) as [v w'] eqn:Hf. cbn [fst snd].
  destruct (cache !! key) as [entry|]; [| reflexivity].
  destruct (Z.ltb_spec now (expires_at entry)); [lia | reflexivity].
Qed.

End WithFetch.

End CacheFacts.



(** ** The retry policy once [time] is bound

    What the loop of [get_collection_assets] does in a module that imports
    [time]: the behaviour the source aims at. *)

Section WithTime.

Variable net : nat -> http_outcome.
Variable globals : list string.
Hypothesis time_is_bound : bound globals "time" = true.

(** Looking a key up raises nothing that the handlers would retry. *)
Lemma py_getitem_raises v k e :
  py_getitem v k = Raised e -> retryable_exn e = false.
Proof.
  destruct v; cbn; try (intros [= <-]; reflexivity).
  destruct (assoc k kvs); [discriminate | intros [= <-]; reflexivity].
Qed.

Lemma has_truthy_raises k v e :
  has_truthy k v = Raised e -> retryable_exn e = false.
Proof.
  unfold has_truthy.
  destruct (py_in k v) as [[|]|e'] eqn:Hin; cbn [obind].
  - destruct (py_getitem v k) eqn:Hget; cbn [obind]; [discriminate |].
    intros [= <-]. exact (py_getitem_raises _ _ _ Hget).
  - discriminate.
  - intros [= <-]. destruct v; cbn in Hin; try discriminate;
      injection Hin as <-; reflexivity.
Qed.

Lemma attempt_with_time slug api_key limit attempt t :
  n_requests (snd (assets_attempt net globals slug api_key limit attempt t))
    = S (n_requests t) /\
  if retryable (net (n_requests t))
  then fst (assets_attempt net globals slug api_key limit attempt t) = Returned Continue /\
       sleeps (snd (assets_attempt net globals slug api_key limit attempt t))
         = sleeps t ++ [2 ^ Z.of_nat attempt]
  else (exists v, fst (assets_attempt net globals slug api_key limit attempt t)
                  = Returned (Return v)) /\
       sleeps (snd (assets_attempt net globals slug api_key limit attempt t)) = sleeps t.
Proof.
  unfold assets_attempt, retryable, retryable_exn. unfold_fetch.
  rewrite time_is_bound. cbv iota.
  repeat (break_inner; cbn [fst snd andb]);
    rewrite ?n_requests_app, ?sleeps_app; cbn [n_requests sleeps];
    rewrite ?app_nil_r;
    try discriminate;
    try match goal with
    | H : has_truthy _ _ = Raised _ |- _ =>
        apply has_truthy_raises in H; cbn in H; congruence
    | H : py_getitem _ _ = Raised _ |- _ =>
        apply py_getitem_raises in H; cbn in H; congruence
    end;
    (split; [lia | split; [eauto | reflexivity]]).
Qed.

(** The loop issues one request per attempt made, sleeps [2 ** attempt]
    seconds after each attempt that asks for a retry, and goes on only
    after a retryable outcome. *)
Lemma loop_with_time slug api_key limit attempts :
  forall t,
  exists k,
    (k <= length attempts)%nat /\
    n_requests (snd (assets_loop net globals slug api_key limit attempts t))
      = (n_requests t + Nat.min (S k) (length attempts))%nat /\
    sleeps (snd (assets_loop net globals slug api_key limit attempts t))
      = sleeps t ++ map (fun a => 2 ^ Z.of_nat a) (firstn k attempts) /\
    (retryable (net (n_requests t)) = false -> k = O).
Proof.
  induction attempts as [|attempt rest IH]; intros t.
  - exists O. cbn [assets_loop]. unfold bind, st_error, emit, ret. cbn [fst snd].
    rewrite n_requests_app, sleeps_app. cbn. rewrite app_nil_r.
    repeat split; lia.
  - cbn [assets_loop]. unfold bind.
    destruct (attempt_with_time slug api_key limit attempt t) as [Hn Hr].
    destruct (assets_attempt net globals slug api_key limit attempt t) as [o t'].
    cbn [fst snd] in Hn, Hr.
    destruct (retryable (net (n_requests t))).
    + destruct Hr as [-> Hs].
      destruct (IH t') as (k & Hk & Hreq & Hsl & _).
      exists (S k). cbn [length firstn map]. rewrite Hreq, Hsl, Hn, Hs.
      rewrite <- app_assoc. cbn [app].
      repeat split; try lia; discriminate.
    + destruct Hr as [[v ->] Hs].
      exists O. cbn [length firstn map fst snd ret]. unfold ret. cbn [fst snd].
      rewrite Hn, Hs, app_nil_r. repeat split; lia.
Qed.

(** With [time] bound the claim of C1 holds: at most three requests, the
    delays a prefix of 1, 2, 4 seconds, and no retry after an outcome that
    is not a 429, a timeout or a server error. *)
Lemma retry_policy_with_time slug api_key limit :
  is_placeholder api_key = false ->
  exists k,
    (k <= 3)%nat /\
    n_requests (snd (run (get_collection_assets_in net globals slug api_key limit)))
      = Nat.min (S k) 3 /\
    sleeps (snd (run (get_collection_assets_in net globals slug api_key limit)))
      = firstn k [1; 2; 4] /\
    (retryable (net 0%nat) = false -> k = O).
Proof.
  intros Hk. unfold run, get_collection_assets_in. rewrite Hk.
  destruct (loop_with_time slug api_key limit (seq 0 max_retries) [])
    as (k & Hle & Hreq & Hsl & Hstop).
  exists k.
  change (length (seq 0 max_retries)) with 3%nat in Hle, Hreq.
  change (n_requests []) with O in Hreq, Hstop.
  change (sleeps []) with (@nil Z) in Hsl.
  repeat split; try assumption.
  rewrite Hsl. destruct k as [|[|[|[|k]]]]; try reflexivity; lia.
Qed.

End WithTime.

(** In a module that imports [time], three server errors in a row are met
    with three requests and delays of 1, 2 and 4 seconds. *)
Example three_attempts_with_time :
  let t := snd (run (get_collection_assets_in
                       (always (respond 503 (Returned JNull)))
                       ("time" :: module_globals) "azuki" "key" 20)) in
  n_requests t = 3%nat /\ sleeps t = [1; 2; 4].
Proof. split; reflexivity. Qed.

(** * Further properties *)

(** ** Traces, continued *)

Lemma requests_of_app (t1 t2 : trace) :
  requests_of (t1 ++ t2) = requests_of t1 ++ requests_of t2.
Proof. induction t1 as [|[] t1 IH]; simpl; congruence. Qed.

Lemma messages_app (t1 t2 : trace) : messages (t1 ++ t2) = messages t1 ++ messages t2.
Proof. induction t1 as [|[] t1 IH]; simpl; congruence. Qed.

Lemma n_requests_length (t : trace) : n_requests t = length (requests_of t).
Proof. induction t as [|[] t IH]; simpl; congruence. Qed.

(** ** [get_collection_stats], continued *)

(** X1.  A 2xx stats response with a [total] object gives a record, with
    no message: each field is read from [total], and a field that [total]
    lacks counts as 0.  An empty [total] object is therefore a record of
    zeros, not "no data". *)
Theorem stats_record_of_totals rt net slug api_key r kvs fields fp vol sl own :
  is_placeholder api_key = false ->
  net 0%nat = Responds r ->
  200 <= status_code r < 300 ->
  json_body r = Returned (JObj kvs) ->
  assoc "total" kvs = Some (JObj fields) ->
  (assoc "floor_price" fields = None /\ fp = 0 \/
   assoc "floor_price" fields = Some (JInt fp)) ->
  (assoc "volume" fields = None /\ vol = 0 \/
   assoc "volume" fields = Some (JInt vol)) ->
  (assoc "sales" fields = None /\ sl = 0 \/
   assoc "sales" fields = Some (JInt sl)) ->
  (assoc "num_owners" fields = None /\ own = 0 \/
   assoc "num_owners" fields = Some (JInt own)) ->
  is_infinite (float_of_Z fp) = false ->
  is_infinite (float_of_Z vol) = false ->
  run (get_collection_stats rt net slug api_key) =
  (Returned (Some {| floor_price := float_of_Z fp; volume := float_of_Z vol;
                     sales := sl; num_owners := own |}),
   [HttpGet (stats_request slug api_key)]).
Proof.
  intros Hk Hnet Hstatus Hbody Htotal Hfp Hvol Hsl Hown Hfpf Hvolf.
  unfold run, get_collection_stats. rewrite Hk. unfold_fetch.
  cbn [n_requests]. rewrite Hnet. cbn iota.
  decide_status. cbn [andb]. rewrite Hbody. cbn [py_in]. rewrite Htotal.
  unfold stats_of, total_field. cbn [py_getitem py_get obind]. rewrite Htotal.
  cbn [obind py_get].
  assert (Hf : forall k z, (assoc k fields = None /\ z = 0 \/ assoc k fields = Some (JInt z)) ->
             match assoc k fields with Some x => x | None => JInt 0 end = JInt z).
  { intros k z [[-> ->] | ->]; reflexivity. }
  rewrite (Hf _ _ Hfp), (Hf _ _ Hvol), (Hf _ _ Hsl), (Hf _ _ Hown).
  cbn [py_float py_int obind]. rewrite Hfpf, Hvolf. reflexivity.
Qed.

(** An empty [total], and a [total] with two of the fields. *)
Lemma stats_record_of_totals_witness :
  run (get_collection_stats example_runtime
         (always (respond 200 (Returned (JObj [("total", JObj [])])))) "azuki" "key") =
    (Returned (Some {| floor_price := float_of_Z 0; volume := float_of_Z 0;
                       sales := 0; num_owners := 0 |}),
     [HttpGet (stats_request "azuki" "key")]) /\
  fst (run (get_collection_stats example_runtime
         (always (respond 200 (Returned (JObj
            [("total", JObj [("sales", JInt 12); ("floor_price", JInt 3)])]))))
         "azuki" "key")) =
    Returned (Some {| floor_price := float_of_Z 3; volume := float_of_Z 0;
                      sales := 12; num_owners := 0 |}).
Proof.
  split.
  - refine (stats_record_of_totals example_runtime
              (always (respond 200 (Returned (JObj [("total", JObj [])])))) "azuki" "key"
              _ _ [] 0 0 0 0 eq_refl eq_refl _ eq_refl eq_refl
              (or_introl (conj eq_refl eq_refl)) (or_introl (conj eq_refl eq_refl))
              (or_introl (conj eq_refl eq_refl)) (or_introl (conj eq_refl eq_refl))
              eq_refl eq_refl).
    cbn. lia.
  - refine (f_equal fst (stats_record_of_totals example_runtime
              (always (respond 200 (Returned (JObj
                 [("total", JObj [("sales", JInt 12); ("floor_price", JInt 3)])]))))
              "azuki" "key" _ _ [("sales", JInt 12); ("floor_price", JInt 3)] 3 0 12 0
              eq_refl eq_refl _ eq_refl eq_refl
              (or_intror eq_refl) (or_introl (conj eq_refl eq_refl))
              (or_intror eq_refl) (or_introl (conj eq_refl eq_refl))
              eq_refl eq_refl)).
    cbn. lia.
Defined.

(** X2.  A [total] that is there and is not an object ([null], a number, a
    list, ...) is an unexpected error: [.get] fails on it, the generic
    handler shows the error, and the call returns [None]. *)
Theorem stats_total_not_an_object rt net slug api_key r kvs total :
  is_placeholder api_key = false ->
  net 0%nat = Responds r ->
  200 <= status_code r < 300 ->
  json_body r = Returned (JObj kvs) ->
  assoc "total" kvs = Some total ->
  (forall fields, total <> JObj fields) ->
  run (get_collection_stats rt net slug api_key) =
  (Returned None,
   [HttpGet (stats_request slug api_key);
    StError [Txt "💥 Unexpected error: "; StrExn AttributeError]]).
Proof.
  intros Hk Hnet Hstatus Hbody Htotal Hshape.
  unfold run, get_collection_stats. rewrite Hk. unfold_fetch.
  cbn [n_requests]. rewrite Hnet. cbn iota.
  decide_status. cbn [andb]. rewrite Hbody. cbn [py_in]. rewrite Htotal.
  unfold stats_of, total_field. cbn [py_getitem obind]. rewrite Htotal.
  cbn [obind].
  destruct total; try reflexivity. exfalso. exact (Hshape _ eq_refl).
Qed.

(** A [total] that is [null]. *)
Lemma stats_total_not_an_object_witness :
  run (get_collection_stats example_runtime
         (always (respond 200 (Returned (JObj [("total", JNull)])))) "azuki" "key") =
  (Returned None,
   [HttpGet (stats_request "azuki" "key");
    StError [Txt "💥 Unexpected error: "; StrExn AttributeError]]).
Proof.
  refine (stats_total_not_an_object example_runtime
            (always (respond 200 (Returned (JObj [("total", JNull)])))) "azuki" "key"
            _ _ JNull eq_refl eq_refl _ eq_refl eq_refl _).
  - cbn. lia.
  - discriminate.
Defined.

(** X3.  The stats fetch never fails silently: on every input it either
    returns a record and shows nothing, or returns [None] and shows exactly
    one message. *)
Theorem stats_None_comes_with_one_message rt net slug api_key :
  (exists record,
     fst (run (get_collection_stats rt net slug api_key)) = Returned (Some record) /\
     messages (snd (run (get_collection_stats rt net slug api_key))) = []) \/
  (fst (run (get_collection_stats rt net slug api_key)) = Returned None /\
   exists m, messages (snd (run (get_collection_stats rt net slug api_key))) = [m]).
Proof.
  unfold run, get_collection_stats. unfold_fetch. cbn [n_requests app].
  repeat (break_inner; cbn [fst snd app messages]);
    first [ left; eexists; split; reflexivity
          | right; split; [reflexivity | eexists; reflexivity] ].
Qed.

(** ** [get_recent_sales], continued *)

(** X4.  The sales fetch never calls [st.error]: whatever happens it shows
    at most one message, and that message is a warning. *)
Theorem sales_show_warnings_only rt net slug api_key :
  forallb is_warning (messages (snd (run (get_recent_sales rt net slug api_key)))) = true /\
  (length (messages (snd (run (get_recent_sales rt net slug api_key)))) <= 1)%nat.
Proof.
  unfold run, get_recent_sales. unfold_fetch. cbn [n_requests app].
  repeat (break_inner; cbn [fst snd app messages]);
    (split; [reflexivity | cbn [length]; lia]).
Qed.

(** X5.  A 2xx sales response without events (no [asset_events] key, or an
    empty list under it) gives an empty frame, not [None], and no message. *)
Theorem sales_without_events rt net slug api_key r kvs :
  is_placeholder api_key = false ->
  net 0%nat = Responds r ->
  200 <= status_code r < 300 ->
  json_body r = Returned (JObj kvs) ->
  assoc "asset_events" kvs = None \/ assoc "asset_events" kvs = Some (JArr []) ->
  run (get_recent_sales rt net slug api_key) =
  (Returned (Some []), [HttpGet (sales_request slug api_key)]).
Proof.
  intros Hk Hnet Hstatus Hbody Hevents.
  unfold run, get_recent_sales. rewrite Hk. unfold_fetch.
  cbn [n_requests]. rewrite Hnet. cbn iota.
  decide_status. cbn [andb]. rewrite Hbody.
  unfold has_truthy. cbn [py_in py_getitem obind].
  destruct Hevents as [-> | ->]; reflexivity.
Qed.

(** A page of events that is empty. *)
Lemma sales_without_events_witness :
  run (get_recent_sales example_runtime
         (always (respond 200 (Returned (JObj [("asset_events", JArr [])]))))
         "azuki" "key") =
  (Returned (Some []), [HttpGet (sales_request "azuki" "key")]).
Proof.
  refine (sales_without_events example_runtime
            (always (respond 200 (Returned (JObj [("asset_events", JArr [])]))))
            "azuki" "key" _ _ eq_refl eq_refl _ eq_refl (or_intror eq_refl)).
  cbn. lia.
Defined.

(** *** The events of a sales response *)

Lemma skipped_event rt before event after e :
  process_event rt event = Raised e ->
  process_events rt (before ++ event :: after) = process_events rt (before ++ after).
Proof.
  intros He. rewrite !process_events_app. cbn [process_events]. rewrite He. reflexivity.
Qed.

(** X8.  An event is dropped, whatever its price, when its [payment_token]
    is there and is not an object ([null] included), or when its [asset] is
    truthy and is not an object: [.get] fails on it, and the per-event
    handler swallows the failure. *)
Theorem malformed_event_is_dropped rt before event after cell :
  (assoc "payment_token" event = Some cell \/
   assoc "asset" event = Some cell /\ truthy cell = true) ->
  (forall kvs, cell <> JObj kvs) ->
  (exists e, process_event rt event = Raised e) /\
  process_events rt (before ++ event :: after) = process_events rt (before ++ after).
Proof.
  intros Hcell Hshape.
  assert (Hget : forall k d, py_get cell k d = Raised AttributeError).
  { intros k d. destruct cell; try reflexivity. exfalso. exact (Hshape _ eq_refl). }
  assert (He : exists e, process_event rt event = Raised e).
  { unfold process_event, sale_asset, Series_get.
    destruct (sale_price rt event) as [amount|e]; [| eauto]. cbn [obind].
    destruct Hcell as [Htoken | [Hasset Htruthy]].
    - rewrite Htoken, Hget.
      destruct (match assoc "asset" event with Some _ => _ | None => _ end); cbn [obind]; eauto.
    - rewrite Hasset, Htruthy, Hget. cbn [obind]. eauto. }
  split; [exact He |]. destruct He as [e He]. exact (skipped_event _ _ _ _ _ He).
Qed.

(** A sale paid with a token that the response leaves [null]. *)
Lemma malformed_event_is_dropped_witness :
  process_events example_runtime
    ([] ++ [("total_price", JStr "1000000000000000000"); ("payment_token", JNull)] :: []) = [].
Proof.
  refine (proj2 (malformed_event_is_dropped example_runtime []
                   [("total_price", JStr "1000000000000000000"); ("payment_token", JNull)]
                   [] JNull (or_introl eq_refl) _)).
  discriminate.
Defined.

(** *** Timestamps *)

Lemma append_cons (c : ascii) (s1 s2 : string) :
  String c s1 +:+ s2 = String c (s1 +:+ s2).
Proof. reflexivity. Qed.

Lemma replace_trailing_Z (s : string) :
  str_contains "Z" s = false ->
  str_replace "Z" "+00:00" (s +:+ "Z") = s +:+ "+00:00".
Proof.
  unfold str_replace. induction s as [|c s IH]; intros H; [reflexivity |].
  rewrite !append_cons. cbn [str_contains] in H.
  apply orb_false_iff in H as [Hp Hs].
  cbn [replace_from String.prefix] in *.
  destruct (ascii_dec "Z" c); [rewrite prefix_empty in Hp; discriminate |].
  f_equal. exact (IH Hs).
Qed.

(** X9.  A timestamp that ends in its only [Z] reaches the parser with the
    [Z] turned into [+00:00]; if the parser rejects it, the row keeps the
    raw timestamp, [Z] included. *)
Theorem utc_timestamp rt (s : string) :
  str_contains "Z" s = false ->
  format_timestamp rt (JStr (s +:+ "Z")) =
  match fromisoformat_strftime rt (s +:+ "+00:00") with
  | Some formatted => JStr formatted
  | None => JStr (s +:+ "Z")
  end.
Proof.
  intros H. unfold format_timestamp.
  assert (Ht : truthy (JStr (s +:+ "Z")) = true).
  { destruct s; reflexivity. }
  rewrite Ht, (replace_trailing_Z _ H). reflexivity.
Qed.

(** A timestamp of the API, with a parser that rejects everything. *)
Lemma utc_timestamp_witness :
  format_timestamp example_runtime (JStr ("2024-05-01T12:00:00" +:+ "Z")) =
  JStr ("2024-05-01T12:00:00" +:+ "Z").
Proof.
  exact (utc_timestamp example_runtime "2024-05-01T12:00:00" eq_refl).
Defined.

(** ** Image URLs, continued *)

(** X10.  The URL the grid hands to [st.image] never starts with
    [ipfs://], and rewriting a rewritten URL changes nothing. *)
Theorem rewritten_url_is_not_ipfs (image_url : string) :
  String.prefix "ipfs://" (rewrite_image_url image_url) = false /\
  rewrite_image_url (rewrite_image_url image_url) = rewrite_image_url image_url.
Proof.
  assert (H : String.prefix "ipfs://" (rewrite_image_url image_url) = false).
  { unfold rewrite_image_url.
    destruct (String.prefix "ipfs://" image_url) eqn:Hp; [reflexivity | exact Hp]. }
  split; [exact H |].
  unfold rewrite_image_url at 1. rewrite H. reflexivity.
Qed.

(** ** [get_collection_assets], continued *)

(** A pass through the loop body issues the request of the call, whatever
    the module binds. *)
Lemma attempt_request net globals slug api_key limit attempt t :
  requests_of (snd (assets_attempt net globals slug api_key limit attempt t))
  = requests_of t ++ [assets_request slug api_key limit].
Proof.
  unfold assets_attempt. unfold_fetch.
  repeat (break_inner; cbn [fst snd]);
    rewrite ?requests_of_app; cbn [requests_of]; rewrite ?app_nil_r; reflexivity.
Qed.

Lemma loop_requests net globals slug api_key limit attempts :
  forall t,
  exists k,
    (k <= length attempts)%nat /\
    (attempts <> [] -> (1 <= k)%nat) /\
    requests_of (snd (assets_loop net globals slug api_key limit attempts t))
    = requests_of t ++ replicate k (assets_request slug api_key limit).
Proof.
  induction attempts as [|attempt rest IH]; intros t.
  - exists O. cbn [assets_loop]. unfold bind, st_error, emit, ret. cbn [fst snd].
    rewrite requests_of_app. cbn. rewrite !app_nil_r.
    split; [lia | split; [congruence | reflexivity]].
  - cbn [assets_loop]. unfold bind.
    pose proof (attempt_request net globals slug api_key limit attempt t) as Hr.
    destruct (assets_attempt net globals slug api_key limit attempt t) as [[[|v]|e] t'];
      cbn [fst snd] in Hr |- *.
    + destruct (IH t') as (k & Hk & _ & Hreq).
      exists (S k). rewrite Hreq, Hr, <- app_assoc. cbn [length replicate app].
      split; [lia | split; [lia | reflexivity]].
    + exists 1%nat. unfold ret. cbn [fst snd length replicate].
      split; [lia | split; [lia | exact Hr]].
    + exists 1%nat. cbn [fst snd length replicate].
      split; [lia | split; [lia | exact Hr]].
Qed.

(** X11.  Whatever the module binds and whatever the network does, the
    assets fetch issues at most three requests, every one of them the same
    request (same URL, key, limit and ordering), and it issues none exactly
    when the key is the placeholder. *)
Theorem assets_requests_are_identical net globals slug api_key limit :
  exists k,
    (k <= 3)%nat /\
    (k = O <-> is_placeholder api_key = true) /\
    requests_of (snd (run (get_collection_assets_in net globals slug api_key limit)))
    = replicate k (assets_request slug api_key limit).
Proof.
  unfold run, get_collection_assets_in.
  destruct (is_placeholder api_key) eqn:Hk.
  - exists O. split; [lia | split; [tauto | reflexivity]].
  - destruct (loop_requests net globals slug api_key limit (seq 0 max_retries) [])
      as (k & Hle & Hpos & Hreq).
    exists k. change (length (seq 0 max_retries)) with 3%nat in Hle.
    split; [exact Hle | split; [| exact Hreq]].
    split; [| discriminate].
    intros ->. assert (1 <= 0)%nat by (apply Hpos; discriminate). lia.
Qed.

(** ** The page *)

Lemma sidebar_key_is_the_input (api_key_input : string) :
  sidebar_key api_key_input = api_key_input.
Proof.
  unfold sidebar_key. destruct (is_placeholder api_key_input) eqn:H; [| reflexivity].
  apply is_placeholder_spec in H. symmetry. exact H.
Qed.

(** From any trace on, the stats fetch hands a value back after one request. *)
Lemma stats_step rt net slug api_key t :
  is_placeholder api_key = false ->
  (exists v, fst (get_collection_stats rt net slug api_key t) = Returned v) /\
  requests_of (snd (get_collection_stats rt net slug api_key t))
  = requests_of t ++ [stats_request slug api_key].
Proof.
  intros Hk. unfold get_collection_stats. rewrite Hk. unfold_fetch.
  repeat (break_inner; cbn [fst snd]);
    rewrite ?requests_of_app; cbn [requests_of]; rewrite ?app_nil_r;
    (split; [eauto | reflexivity]).
Qed.

Lemma sales_step rt net slug api_key t :
  is_placeholder api_key = false ->
  (exists v, fst (get_recent_sales rt net slug api_key t) = Returned v) /\
  requests_of (snd (get_recent_sales rt net slug api_key t))
  = requests_of t ++ [sales_request slug api_key].
Proof.
  intros Hk. unfold get_recent_sales. rewrite Hk. unfold_fetch.
  repeat (break_inner; cbn [fst snd]);
    rewrite ?requests_of_app; cbn [requests_of]; rewrite ?app_nil_r;
    (split; [eauto | reflexivity]).
Qed.

(** From any trace on, the assets fetch of the module is one pass through
    its loop. *)
Lemma assets_call net slug api_key limit t :
  is_placeholder api_key = false ->
  get_collection_assets net slug api_key limit t =
  match assets_attempt net module_globals slug api_key limit 0 t with
  | (Returned (Return v), t') => (Returned v, t')
  | (Returned Continue, t') =>
      assets_loop net module_globals slug api_key limit [1%nat; 2%nat] t'
  | (Raised e, t') => (Raised e, t')
  end.
Proof.
  intros Hk. unfold get_collection_assets, get_collection_assets_in.
  rewrite Hk. cbn [seq max_retries assets_loop]. unfold bind at 1.
  destruct (assets_attempt _ _ _ _ _ _ _) as [[[|v]|e] t']; reflexivity.
Qed.

Lemma assets_step net slug api_key limit t :
  is_placeholder api_key = false ->
  requests_of (snd (get_collection_assets net slug api_key limit t))
  = requests_of t ++ [assets_request slug api_key limit].
Proof.
  intros Hk. rewrite (assets_call _ _ _ _ _ Hk).
  pose proof (attempt_request net module_globals slug api_key limit 0 t) as Hr.
  destruct (attempt_in_module net slug api_key limit 0 t) as (Hc & _).
  destruct (assets_attempt _ _ _ _ _ _ _) as [[[|v]|e] t']; cbn [fst snd] in *;
    [contradiction | exact Hr | exact Hr].
Qed.

(** A timeout or a server error met by the assets fetch leaves it as a
    [NameError], from any trace on. *)
Lemma assets_fault net slug api_key limit t :
  is_placeholder api_key = false ->
  net (n_requests t) = Raises Timeout \/
  (exists r, net (n_requests t) = Responds r /\ 500 <= status_code r < 600) ->
  fst (get_collection_assets net slug api_key limit t) = Raised (NameError "time").
Proof.
  intros Hk Hnet. rewrite (assets_call _ _ _ _ _ Hk).
  unfold assets_attempt. unfold_fetch. rewrite time_is_unbound.
  destruct Hnet as [-> | (r & -> & Hstatus)].
  - reflexivity.
  - repeat (simpl; decide_status). reflexivity.
Qed.

(** What the three fetches of a page load leave behind, when the gate of
    line 305 lets them run: the stats and the sales hand their values back,
    and the page ends as the assets fetch does. *)
Lemma load_page_fetches rt net api_key_input collection_slug :
  truthy (JStr collection_slug) && negb (is_placeholder api_key_input) = true ->
  exists stats recent_sales_df t2,
    requests_of t2 = [stats_request collection_slug api_key_input;
                      sales_request collection_slug api_key_input] /\
    run (load_page rt net api_key_input collection_slug) =
    match get_collection_assets net collection_slug api_key_input 20 t2 with
    | (Returned assets, t3) => (Returned (Fetched stats recent_sales_df assets), t3)
    | (Raised e, t3) => (Raised e, t3)
    end.
Proof.
  intros Hgate. unfold run, load_page.
  rewrite sidebar_key_is_the_input, Hgate.
  apply andb_true_iff in Hgate as [_ Hk]. apply negb_true_iff in Hk.
  unfold bind.
  destruct (stats_step rt net collection_slug api_key_input [] Hk) as [[stats Hs] Hr1].
  destruct (get_collection_stats rt net collection_slug api_key_input []) as [o1 t1].
  cbn [fst snd] in Hs, Hr1 |- *. subst o1.
  destruct (sales_step rt net collection_slug api_key_input t1 Hk) as [[sales Hsl] Hr2].
  destruct (get_recent_sales rt net collection_slug api_key_input t1) as [o2 t2].
  cbn [fst snd] in Hsl, Hr2 |- *. subst o2.
  exists stats, sales, t2. split; [rewrite Hr2, Hr1; reflexivity |].
  destruct (get_collection_assets net collection_slug api_key_input 20 t2) as [[assets|e] t3];
    reflexivity.
Qed.

Lemma load_page_three_requests rt net api_key_input collection_slug :
  truthy (JStr collection_slug) && negb (is_placeholder api_key_input) = true ->
  requests_of (snd (run (load_page rt net api_key_input collection_slug)))
  = [stats_request collection_slug api_key_input;
     sales_request collection_slug api_key_input;
     assets_request collection_slug api_key_input 20].
Proof.
  intros Hgate.
  destruct (load_page_fetches rt net _ _ Hgate) as (stats & sales & t2 & Hreq & ->).
  apply andb_true_iff in Hgate as [_ Hk]. apply negb_true_iff in Hk.
  pose proof (assets_step net collection_slug api_key_input 20 t2 Hk) as Ha.
  destruct (get_collection_assets net collection_slug api_key_input 20 t2) as [[assets|e] t3];
    cbn [fst snd] in Ha |- *; rewrite Ha, Hreq; reflexivity.
Qed.

(** X12.  A page load goes to the network only with a slug and a key that
    is not the placeholder; it then issues exactly three requests, for the
    stats, the sales and the assets, in this order, whatever the network
    answers.  Otherwise it does nothing but prompt, for the key first. *)
Theorem page_load_requests rt net api_key_input collection_slug :
  if truthy (JStr collection_slug) && negb (is_placeholder api_key_input)
  then requests_of (snd (run (load_page rt net api_key_input collection_slug)))
       = [stats_request collection_slug api_key_input;
          sales_request collection_slug api_key_input;
          assets_request collection_slug api_key_input 20]
  else run (load_page rt net api_key_input collection_slug)
       = (Returned (if is_placeholder api_key_input then PromptForKey else PromptForSlug),
          []).
Proof.
  destruct (truthy (JStr collection_slug) && negb (is_placeholder api_key_input)) eqn:Hgate.
  - exact (load_page_three_requests rt net _ _ Hgate).
  - unfold run, load_page. rewrite sidebar_key_is_the_input, Hgate.
    destruct (is_placeholder api_key_input); reflexivity.
Qed.

(** X13.  When the assets request of a page load, the third one, times out
    or meets a server error, the page load ends in the [NameError]: the
    script stops there, although the stats and the sales had been fetched. *)
Theorem page_load_aborts rt net api_key_input collection_slug :
  truthy (JStr collection_slug) && negb (is_placeholder api_key_input) = true ->
  net 2%nat = Raises Timeout \/
  (exists r, net 2%nat = Responds r /\ 500 <= status_code r < 600) ->
  fst (run (load_page rt net api_key_input collection_slug)) = Raised (NameError "time") /\
  n_requests (snd (run (load_page rt net api_key_input collection_slug))) = 3%nat.
Proof.
  intros Hgate Hnet.
  split;
    [| rewrite n_requests_length, (load_page_three_requests rt net _ _ Hgate);
       reflexivity].
  destruct (load_page_fetches rt net _ _ Hgate) as (stats & sales & t2 & Hreq & ->).
  apply andb_true_iff in Hgate as [_ Hk]. apply negb_true_iff in Hk.
  assert (Hn : n_requests t2 = 2%nat) by (rewrite n_requests_length, Hreq; reflexivity).
  pose proof (assets_fault net collection_slug api_key_input 20 t2 Hk) as Hf.
  rewrite Hn in Hf. specialize (Hf Hnet).
  destruct (get_collection_assets net collection_slug api_key_input 20 t2) as [[assets|e] t3];
    cbn [fst] in Hf |- *; [discriminate | injection Hf as ->; reflexivity].
Qed.

(** The stats and the sales answer, the assets time out. *)
Lemma page_load_aborts_witness :
  fst (run (load_page example_runtime
              (fun n => match n with
                        | 2%nat => Raises Timeout
                        | _ => respond 200 (Returned (JObj []))
                        end)
              "key" "azuki")) = Raised (NameError "time").
Proof.
  exact (proj1 (page_load_aborts example_runtime
                  (fun n => match n with
                            | 2%nat => Raises Timeout
                            | _ => respond 200 (Returned (JObj []))
                            end)
                  "key" "azuki" eq_refl (or_introl eq_refl))).
Defined.

(** ** The "Browse Assets" tab *)

Lemma trait_list_of_dicts (l : list json) :
  forallb is_dict l = true ->
  render_trait_list l =
  (map (fun trait => match trait with
                     | JObj kvs => trait_line kvs
                     | _ => Written []
                     end) l, None).
Proof.
  induction l as [|trait l IH]; [reflexivity |].
  cbn [forallb]. intros H. apply andb_true_iff in H as [Hd Hl].
  destruct trait; try discriminate. cbn [render_trait_list map].
  rewrite (IH Hl). reflexivity.
Qed.

Lemma image_of_showable image_fails kvs :
  match assoc "image_url" kvs with
  | Some (JStr _) | None => true
  | Some image_url => negb (truthy image_url)
  end = true ->
  exists shown, render_image image_fails (JObj kvs) = (shown, None).
Proof.
  unfold render_image, asset_image. cbn [py_get obind]. intros Himg.
  destruct (assoc "image_url" kvs) as [[| | | |s| |]|];
    try (apply negb_true_iff in Himg; rewrite Himg; eauto).
  - destruct (truthy (JStr s)); [destruct (image_fails _) |]; eauto.
  - cbn. eauto.
Qed.

(** A showable asset is shown without an exception. *)
Lemma showable_card image_fails nft :
  showable nft = true -> snd (render_card image_fails nft) = None.
Proof.
  destruct nft as [| | | | | |kvs]; try discriminate.
  unfold showable. intros H. apply andb_true_iff in H as [Himg Htr].
  unfold render_card.
  destruct (image_of_showable image_fails kvs Himg) as [shown ->].
  unfold render_traits.
  destruct (assoc "traits" kvs) as [[| | | | |l|]|];
    try (apply negb_true_iff in Htr; rewrite Htr; reflexivity).
  - destruct (truthy (JArr l)); [| reflexivity].
    rewrite (trait_list_of_dicts _ Htr). reflexivity.
  - reflexivity.
Qed.

Lemma grid_place (q j : nat) :
  (j < 4)%nat -> (4 * ((4 * q + j) / 4) = 4 * q)%nat /\ ((4 * q + j) mod 4 = j)%nat.
Proof.
  intros Hj.
  assert (Hq : (q = (4 * q + j) / 4)%nat).
  { apply (Nat.div_unique _ 4 q j); lia. }
  assert (Hm : (j = (4 * q + j) mod 4)%nat).
  { apply (Nat.mod_unique _ 4 q j); lia. }
  lia.
Qed.

Lemma showable_lookup (assets : list json) (k : nat) (nft : json) :
  forallb showable assets = true -> assets !! k = Some nft -> showable nft = true.
Proof.
  revert k. induction assets as [|x assets IH]; intros k H Hl; [discriminate |].
  cbn [forallb] in H. apply andb_true_iff in H as [Hx Hrest].
  destruct k as [|k]; cbn in Hl.
  - injection Hl as <-. exact Hx.
  - exact (IH k Hrest Hl).
Qed.

Section Grid.

Variable image_fails : string -> bool.
Variable assets : list json.
Hypothesis all_showable : forallb showable assets = true.

(** Columns [j0], [j0 + 1], ... of the row that starts at asset [4 * q]. *)
Lemma render_row_from (q len : nat) :
  forall j0,
  (j0 + len <= 4)%nat ->
  render_row image_fails assets (4 * q) (seq j0 len) =
  (map (card_at image_fails assets)
     (seq (4 * q + j0) (Nat.min len (length assets - (4 * q + j0)))), None).
Proof.
  induction len as [|len IH]; intros j0 Hj; [reflexivity |].
  cbn [seq render_row].
  destruct (Nat.ltb_spec (4 * q + j0) (length assets)) as [Hlt | Hge].
  - destruct (lookup_lt_is_Some_2 assets (4 * q + j0) Hlt) as [nft Hnft].
    rewrite Hnft.
    pose proof (showable_card image_fails nft (showable_lookup _ _ _ all_showable Hnft))
      as Hok.
    destruct (render_card image_fails nft) as [shown fault] eqn:Hcard.
    cbn [snd] in Hok. subst fault.
    rewrite (IH (S j0)) by lia.
    destruct (length assets - (4 * q + j0))%nat as [|m] eqn:Hm; [lia |].
    replace (length assets - (4 * q + S j0))%nat with m by lia.
    replace (4 * q + S j0)%nat with (S (4 * q + j0)) by lia.
    cbn [Nat.min seq map]. f_equal. f_equal.
    unfold card_at. rewrite Hnft, Hcard. cbn [fst].
    destruct (grid_place q j0) as [-> ->]; [lia | reflexivity].
  - rewrite (IH (S j0)) by lia.
    replace (length assets - (4 * q + S j0))%nat with O by lia.
    replace (length assets - (4 * q + j0))%nat with O by lia.
    rewrite !Nat.min_0_r. reflexivity.
Qed.

(** The rows from the one that starts at asset [4 * q] on. *)
Lemma render_rows_from (fuel : nat) :
  forall q,
  (length assets <= 4 * q + fuel)%nat ->
  render_rows image_fails assets (range_from fuel (4 * q) (length assets) cols_per_row) =
  (map (card_at image_fails assets) (seq (4 * q) (length assets - 4 * q)), None).
Proof.
  induction fuel as [|fuel IH]; intros q Hfuel.
  - cbn [range_from render_rows].
    replace (length assets - 4 * q)%nat with O by lia. reflexivity.
  - cbn [range_from].
    destruct (Nat.ltb_spec (4 * q) (length assets)) as [Hlt | Hge].
    + cbn [render_rows]. unfold cols_per_row at 1.
      rewrite (render_row_from q 4 0) by lia.
      replace (4 * q + cols_per_row)%nat with (4 * S q)%nat by (unfold cols_per_row; lia).
      rewrite (IH (S q)) by lia.
      rewrite Nat.add_0_r, <- map_app. f_equal. f_equal.
      destruct (Nat.le_gt_cases 4 (length assets - 4 * q)) as [Hfull | Hpart].
      * rewrite Nat.min_l by exact Hfull.
        assert (E : (length assets - 4 * q = 4 + (length assets - 4 * S q))%nat) by lia.
        rewrite E, seq_app. do 2 f_equal. lia.
      * rewrite Nat.min_r by lia.
        replace (length assets - 4 * S q)%nat with O by lia.
        cbn [seq]. rewrite app_nil_r. reflexivity.
    + cbn [render_rows].
      replace (length assets - 4 * q)%nat with O by lia. reflexivity.
Qed.

End Grid.

(** X14.  When every asset of a non-empty list is showable, the tab shows
    the heading with their number and then exactly one card per asset, in
    the order of the list, four to a row: asset [k] sits in the row that
    starts at asset [4 * (k / 4)], in column [k mod 4].  No asset is left
    out or shown twice, and nothing raises. *)
Theorem grid_shows_every_asset image_fails collection_slug (assets : list json) :
  forallb showable assets = true ->
  assets <> [] ->
  browse_assets image_fails collection_slug assets =
  (Subheader [Txt "Showing "; Num (Z.of_nat (length assets)); Txt " NFTs from '";
              Txt collection_slug; Txt "'"],
   (map (card_at image_fails assets) (seq 0 (length assets)), None)).
Proof.
  intros Hall Hne. unfold browse_assets.
  destruct assets as [|nft rest] eqn:Ha; [contradiction |]. rewrite <- Ha in *.
  f_equal. unfold py_range.
  pose proof (render_rows_from image_fails assets Hall (length assets) 0) as H.
  cbn [Nat.mul] in H. rewrite Nat.sub_0_r in H. apply H. lia.
Qed.

(** Five assets: a full row and a row of one. *)
Lemma grid_shows_every_asset_witness :
  map (fun p => (row_start p, column p))
      (fst (snd (browse_assets (fun _ => false) "azuki"
                   [JObj [("identifier", JStr "1")]; JObj [("identifier", JStr "2")];
                    JObj [("identifier", JStr "3")]; JObj [("identifier", JStr "4")];
                    JObj [("identifier", JStr "5")]])))
  = [(0, 0); (0, 1); (0, 2); (0, 3); (4, 0)]%nat.
Proof.
  rewrite (grid_shows_every_asset (fun _ => false) "azuki"
             [JObj [("identifier", JStr "1")]; JObj [("identifier", JStr "2")];
              JObj [("identifier", JStr "3")]; JObj [("identifier", JStr "4")];
              JObj [("identifier", JStr "5")]] eq_refl ltac:(discriminate)).
  reflexivity.
Defined.

(** *** Traits *)

Lemma trait_list_until (dicts : list (list (string * json))) (rest : list json) :
  render_trait_list (map JObj dicts ++ rest) =
  (map trait_line dicts ++ fst (render_trait_list rest), snd (render_trait_list rest)).
Proof.
  induction dicts as [|kvs dicts IH]; cbn [map app].
  - destruct (render_trait_list rest); reflexivity.
  - cbn [render_trait_list]. rewrite IH. reflexivity.
Qed.

(** X15.  The traits of an asset are written one line per trait, in their
    order, with "Unknown" for a trait type or a value that is missing.  A
    trait that is not a dict stops the tab with an [AttributeError], after
    the lines of the traits before it. *)
Theorem traits_are_listed (dicts : list (list (string * json))) :
  (dicts <> [] ->
   render_traits (JArr (map JObj dicts)) = (map trait_line dicts, None)) /\
  (forall bad rest, is_dict bad = false ->
   render_traits (JArr (map JObj dicts ++ bad :: rest))
   = (map trait_line dicts, Some AttributeError)).
Proof.
  split.
  - intros Hne. unfold render_traits.
    destruct dicts as [|kvs dicts]; [contradiction |]. cbn [map truthy].
    pose proof (trait_list_until (kvs :: dicts) []) as H.
    rewrite app_nil_r in H. cbn [map render_trait_list fst snd] in H.
    rewrite app_nil_r in H. exact H.
  - intros bad rest Hbad. unfold render_traits.
    assert (Ht : truthy (JArr (map JObj dicts ++ bad :: rest)) = true).
    { destruct dicts; reflexivity. }
    rewrite Ht, trait_list_until.
    destruct bad; try discriminate; cbn [render_trait_list fst snd];
      rewrite app_nil_r; reflexivity.
Qed.

(** Two traits, the second without a value; and a trait that is a string. *)
Lemma traits_are_listed_witness :
  render_traits (JArr (map JObj [[("trait_type", JStr "Fur"); ("value", JStr "Gold")];
                                 [("trait_type", JStr "Hat")]])) =
    ([Written [Txt "**"; Val (JStr "Fur"); Txt ":** "; Val (JStr "Gold")];
      Written [Txt "**"; Val (JStr "Hat"); Txt ":** "; Val (JStr "Unknown")]], None) /\
  render_traits (JArr (map JObj [[("trait_type", JStr "Fur")]] ++ JStr "Hat" :: [])) =
    ([Written [Txt "**"; Val (JStr "Fur"); Txt ":** "; Val (JStr "Unknown")]],
     Some AttributeError).
Proof.
  split.
  - refine (proj1 (traits_are_listed
                     [[("trait_type", JStr "Fur"); ("value", JStr "Gold")];
                      [("trait_type", JStr "Hat")]]) _).
    discriminate.
  - exact (proj2 (traits_are_listed [[("trait_type", JStr "Fur")]])
             (JStr "Hat") [] eq_refl).
Defined.

(** ** The retry policy once [time] is bound, continued *)

(** One pass through the loop body of a module that binds [time], from a
    trace that holds [n] requests: [Hn] counts the requests after it and
    [H] tells how it ends. *)
Ltac pass_with_time Hb attempt t n Hn H :=
  match goal with
  | |- context [assets_attempt ?net ?globals ?slug ?api_key ?limit attempt t] =>
      destruct (attempt_with_time net globals Hb slug api_key limit attempt t) as [Hn H];
      replace (n_requests t) with n in Hn, H by (symmetry; assumption || reflexivity)
  end.

(** X16.  In a module that binds [time], the loop goes on exactly while the
    outcomes are retryable: when the first outcome that is not retryable is
    the one of attempt [j], the call issues [j + 1] requests, has slept
    [2 ** attempt] seconds after each of the [j] attempts before it, and
    returns. *)
Theorem retry_stops_at_first_answer net globals slug api_key limit (j : nat) :
  bound globals "time" = true ->
  is_placeholder api_key = false ->
  (j < 3)%nat ->
  (forall i, (i < j)%nat -> retryable (net i) = true) ->
  retryable (net j) = false ->
  n_requests (snd (run (get_collection_assets_in net globals slug api_key limit))) = S j /\
  sleeps (snd (run (get_collection_assets_in net globals slug api_key limit)))
    = firstn j [1; 2; 4] /\
  exists v, fst (run (get_collection_assets_in net globals slug api_key limit)) = Returned v.
Proof.
  intros Hb Hk Hj Hretry Hstop.
  unfold run, get_collection_assets_in. rewrite Hk.
  cbn [seq max_retries assets_loop]. unfold bind.
  pass_with_time Hb 0%nat (@nil event) 0%nat Hn0 H0.
  destruct j as [|j].
  { rewrite Hstop in H0. destruct H0 as [[v Hf0] Hs0].
    destruct (assets_attempt net globals slug api_key limit 0 []) as [o0 t0].
    cbn [fst snd] in *. subst o0. unfold ret. cbn [fst snd].
    split; [exact Hn0 | split; [exact Hs0 | eauto]]. }
  rewrite (Hretry 0%nat) in H0 by lia. destruct H0 as [Hf0 Hs0].
  destruct (assets_attempt net globals slug api_key limit 0 []) as [o0 t0].
  cbn [fst snd sleeps app] in Hn0, Hf0, Hs0. subst o0.
  pass_with_time Hb 1%nat t0 1%nat Hn1 H1.
  destruct j as [|j].
  { rewrite Hstop in H1. destruct H1 as [[v Hf1] Hs1].
    destruct (assets_attempt net globals slug api_key limit 1 t0) as [o1 t1].
    cbn [fst snd] in *. subst o1. unfold ret. cbn [fst snd].
    rewrite Hs1, Hs0. split; [exact Hn1 | split; [reflexivity | eauto]]. }
  rewrite (Hretry 1%nat) in H1 by lia. destruct H1 as [Hf1 Hs1].
  destruct (assets_attempt net globals slug api_key limit 1 t0) as [o1 t1].
  cbn [fst snd] in Hn1, Hf1, Hs1. subst o1.
  pass_with_time Hb 2%nat t1 2%nat Hn2 H2.
  destruct j as [|j]; [| lia].
  rewrite Hstop in H2. destruct H2 as [[v Hf2] Hs2].
  destruct (assets_attempt net globals slug api_key limit 2 t1) as [o2 t2].
  cbn [fst snd] in *. subst o2. unfold ret. cbn [fst snd].
  rewrite Hs2, Hs1, Hs0. split; [exact Hn2 | split; [reflexivity | eauto]].
Qed.

(** A rate limit, then a page of assets. *)
Lemma retry_stops_at_first_answer_witness :
  n_requests (snd (run (get_collection_assets_in
                          (fun n => match n with
                                    | O => respond 429 (Returned JNull)
                                    | _ => respond 200 (Returned (JObj []))
                                    end)
                          ("time" :: module_globals) "azuki" "key" 20))) = 2%nat.
Proof.
  refine (proj1 (retry_stops_at_first_answer
                   (fun n => match n with
                             | O => respond 429 (Returned JNull)
                             | _ => respond 200 (Returned (JObj []))
                             end)
                   ("time" :: module_globals) "azuki" "key" 20 1 eq_refl eq_refl _ _ eq_refl)).
  - lia.
  - intros [|i] Hi; [reflexivity | lia].
Defined.

(** X17.  In a module that binds [time], three retryable outcomes in a row
    exhaust the loop: the call has issued three requests, has slept 1, 2
    and then 4 seconds (the last delay after the last attempt), ends with
    the error message of line 260 and returns [None]. *)
Theorem exhausted_retries net globals slug api_key limit :
  bound globals "time" = true ->
  is_placeholder api_key = false ->
  retryable (net 0%nat) = true ->
  retryable (net 1%nat) = true ->
  retryable (net 2%nat) = true ->
  fst (run (get_collection_assets_in net globals slug api_key limit)) = Returned JNull /\
  n_requests (snd (run (get_collection_assets_in net globals slug api_key limit))) = 3%nat /\
  sleeps (snd (run (get_collection_assets_in net globals slug api_key limit))) = [1; 2; 4] /\
  exists t,
    snd (run (get_collection_assets_in net globals slug api_key limit)) =
    t ++ [StError [Txt "❌ Failed to fetch assets after "; Num 3;
                   Txt " attempts due to timeout or rate limit."]].
Proof.
  intros Hb Hk R0 R1 R2.
  unfold run, get_collection_assets_in. rewrite Hk.
  cbn [seq max_retries assets_loop]. unfold bind.
  destruct (attempt_with_time net globals Hb slug api_key limit 0 []) as [Hn0 H0].
  cbn [n_requests] in Hn0, H0. rewrite R0 in H0. destruct H0 as [Hf0 Hs0].
  destruct (assets_attempt net globals slug api_key limit 0 []) as [o0 t0].
  cbn [fst snd sleeps app] in Hn0, Hf0, Hs0. subst o0.
  destruct (attempt_with_time net globals Hb slug api_key limit 1 t0) as [Hn1 H1].
  rewrite Hn0 in Hn1, H1. rewrite R1 in H1. destruct H1 as [Hf1 Hs1].
  destruct (assets_attempt net globals slug api_key limit 1 t0) as [o1 t1].
  cbn [fst snd] in Hn1, Hf1, Hs1. subst o1.
  destruct (attempt_with_time net globals Hb slug api_key limit 2 t1) as [Hn2 H2].
  rewrite Hn1 in Hn2, H2. rewrite R2 in H2. destruct H2 as [Hf2 Hs2].
  destruct (assets_attempt net globals slug api_key limit 2 t1) as [o2 t2].
  cbn [fst snd] in Hn2, Hf2, Hs2. subst o2.
  unfold st_error, emit, ret. cbn [fst snd].
  rewrite n_requests_app, sleeps_app, Hn2, Hs2, Hs1, Hs0.
  split; [reflexivity |]. split; [reflexivity |]. split; [reflexivity |].
  exists t2. reflexivity.
Qed.

(** Three timeouts. *)
Lemma exhausted_retries_witness :
  sleeps (snd (run (get_collection_assets_in (always (Raises Timeout))
                      ("time" :: module_globals) "azuki" "key" 20))) = [1; 2; 4].
Proof.
  destruct (exhausted_retries (always (Raises Timeout)) ("time" :: module_globals)
              "azuki" "key" 20 eq_refl eq_refl eq_refl eq_refl eq_refl)
    as (_ & _ & H & _).
  exact H.
Defined.

(** ** [get_recent_sales]: the rows of a response *)

Lemma all_events_skipped rt (rows : list (list (string * json))) :
  Forall (fun event => exists e, process_event rt event = Raised e) rows ->
  process_events rt rows = [].
Proof.
  induction 1 as [|event rows [e He] _ IH]; [reflexivity |].
  cbn [process_events]. rewrite He. exact IH.
Qed.

(** X18.  For a 2xx sales response with events, the frame returned holds
    the rows of the events that could be processed, and no message is
    shown, however many events were skipped: when no event can be
    processed the call returns an empty frame, as it does for a response
    without events. *)
Theorem sales_rows rt net slug api_key r kvs asset_events rows :
  is_placeholder api_key = false ->
  net 0%nat = Responds r ->
  200 <= status_code r < 300 ->
  json_body r = Returned (JObj kvs) ->
  assoc "asset_events" kvs = Some asset_events ->
  truthy asset_events = true ->
  DataFrame_iterrows rt asset_events = Returned rows ->
  run (get_recent_sales rt net slug api_key) =
    (Returned (Some (process_events rt rows)), [HttpGet (sales_request slug api_key)]) /\
  (Forall (fun event => exists e, process_event rt event = Raised e) rows ->
   run (get_recent_sales rt net slug api_key) =
     (Returned (Some []), [HttpGet (sales_request slug api_key)])).
Proof.
  intros Hk Hnet Hstatus Hbody Hevents Htruthy Hrows.
  assert (H : run (get_recent_sales rt net slug api_key) =
              (Returned (Some (process_events rt rows)),
               [HttpGet (sales_request slug api_key)])).
  { unfold run, get_recent_sales. rewrite Hk. unfold_fetch.
    cbn [n_requests]. rewrite Hnet. cbn iota.
    decide_status. cbn [andb]. rewrite Hbody.
    unfold has_truthy. cbn [py_in py_getitem obind]. rewrite Hevents.
    cbn [obind]. rewrite Htruthy, Hrows. reflexivity. }
  split; [exact H |].
  intros Hall. rewrite H, (all_events_skipped _ _ Hall). reflexivity.
Qed.

(** One event, whose price is [null]. *)
Lemma sales_rows_witness :
  run (get_recent_sales example_runtime
         (always (respond 200 (Returned (JObj
            [("asset_events", JArr [JObj [("total_price", JNull)]])]))))
         "azuki" "key") =
  (Returned (Some []), [HttpGet (sales_request "azuki" "key")]).
Proof.
  refine (proj2 (sales_rows example_runtime
                   (always (respond 200 (Returned (JObj
                      [("asset_events", JArr [JObj [("total_price", JNull)]])]))))
                   "azuki" "key" _ _ (JArr [JObj [("total_price", JNull)]])
                   [[("total_price", JNull)]]
                   eq_refl eq_refl _ eq_refl eq_refl eq_refl eq_refl) _).
  - cbn. lia.
  - constructor; [exists TypeError; reflexivity | constructor].
Defined.
